(** * BoardAiMovil: the chat screen and its API client

    A shallow embedding of
      - [src/frontend/types/chat.ts]            (the message record),
      - [src/frontend/services/apiBilly.ts]     (the axios client, [ApiBilly]),
      - [src/frontend/screens/ChatbotScreen.tsx] (the screen's handlers,
        [ChatbotScreen]),
    followed by the properties of the conversational session that the
    specification states about them.

    Modelling conventions.
      - A JavaScript string is a [string] holding its UTF-8 encoding.
      - The React state of the component is the record [State]; a handler is
        a closure over the state of the render it was created in, so every
        handler takes that render's [State] as its first argument and reaches
        the live state only through the setters.
      - Everything outside the component (the remote calls issued, the alerts
        shown, the clock and the random generator) lives in [World].
      - An [await] of a remote call is modelled by handing the handler the
        outcome the transport will deliver ([Axios]); a handler run is one
        transition of the world.
      - [console.log] and [console.error] have no effect on any of this and
        are left out. *)

From Stdlib Require Import String Ascii List Bool Arith ZArith QArith Lia.
From Stdlib Require Import DecimalString.
Import ListNotations.

Set Warnings "-register-all".
Local Close Scope Q_scope.
Local Open Scope list_scope.
Local Open Scope string_scope.

(** ** JavaScript strings *)

Module JsString.

(** The line feed of the template literals, and the double quote. *)
Definition nl : string := String (ascii_of_nat 10) EmptyString.
Definition dquote : string := String (ascii_of_nat 34) EmptyString.

Definition bytes (l : list nat) : string :=
  fold_right (fun n s => String (ascii_of_nat n) s) EmptyString l.

(** The code points [String.prototype.trim] strips (WhiteSpace and
    LineTerminator of ECMAScript), by the length of their UTF-8 encoding:
    U+0009..U+000D and U+0020; U+00A0; U+1680, U+2000..U+200A, U+2028,
    U+2029, U+202F, U+205F, U+3000 and U+FEFF. *)
Definition ws1 (a : ascii) : bool :=
  let n := nat_of_ascii a in
  (((9 <=? n) && (n <=? 13)) || (n =? 32))%nat.

Definition ws2 (a b : ascii) : bool :=
  ((nat_of_ascii a =? 194) && (nat_of_ascii b =? 160))%nat.

Definition ws3 (a b c : ascii) : bool :=
  let x := nat_of_ascii a in
  let y := nat_of_ascii b in
  let z := nat_of_ascii c in
  (((x =? 225) && (y =? 154) && (z =? 128))
   || ((x =? 226) && (y =? 128)
       && (((128 <=? z) && (z <=? 138)) || (z =? 168) || (z =? 169) || (z =? 175)))
   || ((x =? 226) && (y =? 129) && (z =? 159))
   || ((x =? 227) && (y =? 128) && (z =? 128))
   || ((x =? 239) && (y =? 187) && (z =? 191)))%nat.

Fixpoint trimStart (s : string) : string :=
  match s with
  | EmptyString => EmptyString
  | String a s1 =>
      if ws1 a then trimStart s1
      else
        match s1 with
        | EmptyString => s
        | String b s2 =>
            if ws2 a b then trimStart s2
            else
              match s2 with
              | EmptyString => s
              | String c s3 => if ws3 a b c then trimStart s3 else s
              end
        end
  end.

(** The part of [s] before its trailing run of white space: a byte is kept
    as long as something other than white space follows or starts there. *)
Fixpoint trimEnd (s : string) : string :=
  match s with
  | EmptyString => EmptyString
  | String a r =>
      match trimStart s with
      | EmptyString => EmptyString
      | String _ _ => String a (trimEnd r)
      end
  end.

Definition trim (s : string) : string := trimEnd (trimStart s).
Arguments trim s : simpl never.

(** [hay.includes(needle)] *)
Fixpoint includes (hay needle : string) : bool :=
  if prefix needle hay then true
  else
    match hay with
    | EmptyString => false
    | String _ r => includes r needle
    end.

(** Truthiness of a string: every string but the empty one. *)
Definition truthy (s : string) : bool :=
  match s with EmptyString => false | String _ _ => true end.

(** The white-space characters as strings, for stating what a blank input
    is without going through [trim]. *)
Definition whiteSpace : list string :=
  map bytes
    [ [9]; [10]; [11]; [12]; [13]; [32]; [194; 160]; [225; 154; 128];
      [226; 128; 128]; [226; 128; 129]; [226; 128; 130]; [226; 128; 131];
      [226; 128; 132]; [226; 128; 133]; [226; 128; 134]; [226; 128; 135];
      [226; 128; 136]; [226; 128; 137]; [226; 128; 138]; [226; 128; 168];
      [226; 128; 169]; [226; 128; 175]; [226; 129; 159]; [227; 128; 128];
      [239; 187; 191] ].

(** A string is blank when it is a (possibly empty) run of white-space
    characters. *)
Inductive Blank : string -> Prop :=
| Blank_empty : Blank EmptyString
| Blank_more (w s : string) : In w whiteSpace -> Blank s -> Blank (w ++ s).

End JsString.

(** ** JavaScript values the code inspects *)

(** A JavaScript number, as far as the screen looks at it: whether it is
    truthy (neither 0 nor NaN) and how a template literal prints it. *)
Record number : Type := mkNumber {
  number_truthy : bool;
  number_text : string
}.

(** The number an integer literal denotes. *)
Definition number_of_Z (z : Z) : number :=
  {| number_truthy := negb (Z.eqb z 0);
     number_text := NilEmpty.string_of_int (Z.to_int z) |}.

(** An untyped ([any]) response body. *)
Inductive JsValue : Type :=
| JsUndefined
| JsNull
| JsBool (b : bool)
| JsNumber (n : number)
| JsText (s : string)
| JsArray (items : list JsValue)
| JsObject (fields : list (string * JsValue)).

(** Truthiness of a value: [undefined], [null], [false], 0, NaN and the
    empty string are falsy; everything else, every array and object
    included, is truthy. *)
Definition truthyValue (v : JsValue) : bool :=
  match v with
  | JsUndefined | JsNull => false
  | JsBool b => b
  | JsNumber n => number_truthy n
  | JsText s => match s with EmptyString => false | String _ _ => true end
  | JsArray _ | JsObject _ => true
  end.

(** The string a value is converted to (by [new Error(v)], among others):
    an array is its elements joined by commas, [null] and [undefined]
    elements counting as empty; an object is "[object Object]". *)
Fixpoint toString (v : JsValue) : string :=
  match v with
  | JsUndefined => "undefined"
  | JsNull => "null"
  | JsBool b => if b then "true" else "false"
  | JsNumber n => number_text n
  | JsText s => s
  | JsArray items =>
      (fix join (l : list JsValue) : string :=
         match l with
         | [] => ""
         | x :: rest =>
             let first :=
               match x with
               | JsUndefined | JsNull => ""
               | _ => toString x
               end in
             match rest with
             | [] => first
             | _ :: _ => first ++ "," ++ join rest
             end
         end) items
  | JsObject _ => "[object Object]"
  end.

(** [v?.prop]: [undefined] when [v] is [null] or [undefined] or has no such
    property. *)
Definition optional_prop (v : JsValue) (prop : string) : JsValue :=
  match v with
  | JsObject fields =>
      match find (fun kv => String.eqb (fst kv) prop) fields with
      | Some kv => snd kv
      | None => JsUndefined
      end
  | _ => JsUndefined
  end.

(** What a [catch] clause receives.  An axios error carries [message], and
    [code] and [response] when there are any; [response.data] is the parsed
    error body, of any shape ([response.data.detail] is where FastAPI puts
    its error text, or its list of validation errors). *)
Record ErrorResponse : Type := mkErrorResponse {
  status : Z;
  response_data : JsValue
}.

Record JsError : Type := mkJsError {
  message : string;
  code : option string;
  response_of : option ErrorResponse
}.

(** [new Error(msg)] *)
Definition Error (msg : string) : JsError :=
  {| message := msg; code := None; response_of := None |}.

(** The [TypeError] of reading a property of [null] or [undefined]. *)
Definition TypeError (prop : string) : JsError :=
  Error ("Cannot read property '" ++ prop ++ "' of null").

(** ** [types/chat.ts] *)

Inductive MessageType : Type :=
| text_ | search | pdf | citation | error | pdf_upload | pdf_analysis.

Definition MessageType_eqb (a b : MessageType) : bool :=
  match a, b with
  | text_, text_ | search, search | pdf, pdf | citation, citation
  | error, error | pdf_upload, pdf_upload | pdf_analysis, pdf_analysis => true
  | _, _ => false
  end.

(** [interface ChatMessage].  [id] is a JavaScript number that need not be an
    integer ([Date.now() + Math.random()]): a rational here. *)
Record ChatMessage : Type := mkChatMessage {
  id : Q;
  text : string;
  isBot : bool;
  timestamp : Z;
  type : option MessageType;
  data : option JsValue
}.

(** ** The transport *)

(** [interface ApiResponse], the fields the screen reads. *)
Record ApiResponse : Type := mkApiResponse {
  success : bool;
  response : option string;
  analysis : option string;
  preview : option string;
  pages : option number;
  size_kb : option number
}.

(** How a request through the axios instance ends: the promise resolves with
    the response body (a 2xx status), or rejects with an axios error (no
    route, timeout, any other status). *)
Inductive Axios (A : Type) : Type :=
| Resolved (body : A)
| Rejected (e : JsError).
Arguments Resolved {A} body.
Arguments Rejected {A} e.

(** [interface ChatRequest], [interface ClearHistoryRequest] and the
    multipart bodies, as the requests that leave the client. *)
Record ChatRequest : Type := mkChatRequest {
  chat_message : string;
  user_id : option string;
  clear_history : option bool
}.

Record UploadFile : Type := mkUploadFile {
  file_uri : string;
  file_type : string;
  file_name : string
}.

Inductive Request : Type :=
| GetHealth
| PostChat (body : ChatRequest)
| PostUploadPdf (file : UploadFile)
| PostAskPdf (question : string)
| PostClearHistory (userId : string).

(** ** The component's state and the world around it *)

(** [currentPDF] *)
Record PdfInfo : Type := mkPdfInfo {
  name : string;
  pdf_analysis_of : option string;
  pdf_preview : option string;
  pdf_pages : option number;
  pdf_size_kb : option number
}.

(** The [useState] cells of [ChatbotScreen]. *)
Record State : Type := mkState {
  messages : list ChatMessage;
  inputText : string;
  isLoading : bool;
  isServerConnected : option bool;
  currentPDF : option PdfInfo;
  uploadingPDF : bool
}.

(** The clock and the random generator: what the n-th [Date.now()] (or
    [new Date()]) and the n-th [Math.random()] return. *)
Record Sys : Type := mkSys {
  dateNow : nat -> Z;
  mathRandom : nat -> Q
}.

Record World : Type := mkWorld {
  ui : State;
  requests : list Request;   (* remote calls issued, oldest first *)
  alerts : list string;      (* titles of the alerts shown, oldest first *)
  sys : Sys;
  clockReads : nat;
  randomDraws : nat
}.

Definition with_ui (f : State -> State) (w : World) : World :=
  {| ui := f (ui w); requests := requests w; alerts := alerts w;
     sys := sys w; clockReads := clockReads w; randomDraws := randomDraws w |}.

(** ** Handlers: state and exceptions *)

Inductive Completion (A : Type) : Type :=
| Returned (a : A)
| Thrown (e : JsError).
Arguments Returned {A} a.
Arguments Thrown {A} e.

(** A piece of handler code: it runs in a world, changes it, and returns or
    throws.  What it did to the world before throwing stays done. *)
Definition M (A : Type) : Type := World -> Completion A * World.

Definition ret {A} (a : A) : M A := fun w => (Returned a, w).

Definition throw {A} (e : JsError) : M A := fun w => (Thrown e, w).

Definition bind {A B} (m : M A) (k : A -> M B) : M B :=
  fun w =>
    match m w with
    | (Returned a, w') => k a w'
    | (Thrown e, w') => (Thrown e, w')
    end.

Declare Scope js_scope.
Delimit Scope js_scope with js.
Notation "x <- m ;; k" := (bind m (fun x => k))
  (at level 61, m at next level, right associativity) : js_scope.
Notation "m ;; k" := (bind m (fun _ => k))
  (at level 61, right associativity) : js_scope.
Local Open Scope js_scope.

(** [try { body } catch (e) { handler e }] *)
Definition try_catch {A} (body : M A) (handler : JsError -> M A) : M A :=
  fun w =>
    match body w with
    | (Returned a, w') => (Returned a, w')
    | (Thrown e, w') => handler e w'
    end.

(** [try { body } finally { fin }] *)
Definition try_finally {A} (body : M A) (fin : M unit) : M A :=
  fun w =>
    match body w with
    | (c, w') =>
        match fin w' with
        | (Returned _, w'') => (c, w'')
        | (Thrown e, w'') => (Thrown e, w'')
        end
    end.

(** The world a handler leaves behind. *)
Definition exec {A} (m : M A) (w : World) : World := snd (m w).

Definition modify (f : World -> World) : M unit := fun w => (Returned tt, f w).

(** [Date.now()], and the reading of the clock by [new Date()]. *)
Definition Date_now : M Z :=
  fun w =>
    (Returned (dateNow (sys w) (clockReads w)),
     {| ui := ui w; requests := requests w; alerts := alerts w;
        sys := sys w; clockReads := S (clockReads w);
        randomDraws := randomDraws w |}).

Definition new_Date : M Z := Date_now.

(** [Math.random()] *)
Definition Math_random : M Q :=
  fun w =>
    (Returned (mathRandom (sys w) (randomDraws w)),
     {| ui := ui w; requests := requests w; alerts := alerts w;
        sys := sys w; clockReads := clockReads w;
        randomDraws := S (randomDraws w) |}).

(** [Alert.alert(title, ...)]: the title is recorded; the buttons are the
    [confirm] argument of the handlers that ask. *)
Definition Alert_alert (title : string) : M unit :=
  modify (fun w =>
    {| ui := ui w; requests := requests w; alerts := alerts w ++ [title];
       sys := sys w; clockReads := clockReads w;
       randomDraws := randomDraws w |}).

(** A request leaves through the axios instance and ends as [net] says. *)
Definition request {A} (r : Request) (net : Axios A) : M A :=
  fun w =>
    let w' :=
      {| ui := ui w; requests := requests w ++ [r]; alerts := alerts w;
         sys := sys w; clockReads := clockReads w;
         randomDraws := randomDraws w |} in
    match net with
    | Resolved body => (Returned body, w')
    | Rejected e => (Thrown e, w')
    end.

(** [v.prop] on an untyped value. *)
Definition get_prop (v : JsValue) (prop : string) : M JsValue :=
  match v with
  | JsUndefined | JsNull => throw (TypeError prop)
  | JsObject fields =>
      match find (fun kv => String.eqb (fst kv) prop) fields with
      | Some kv => ret (snd kv)
      | None => ret JsUndefined
      end
  | _ => ret JsUndefined
  end.

(** [v === 'healthy'] and the like. *)
Definition strict_eq_string (v : JsValue) (s : string) : bool :=
  match v with
  | JsText t => String.eqb t s
  | _ => false
  end.

(** [x || d] on an optional string. *)
Definition or_else (x : option string) (d : string) : string :=
  match x with
  | Some s => if JsString.truthy s then s else d
  | None => d
  end.

(** The string in an optional field that the code has just tested to be
    there. *)
Definition the (x : option string) : string :=
  match x with Some s => s | None => "undefined" end.

(** A parameter with a default value: the default is taken when the argument
    is left out. *)
Definition default_arg {A} (d : A) (arg : option A) : A :=
  match arg with Some a => a | None => d end.

(** ** [services/apiBilly.ts] *)

Module ApiBilly.

(** [error.response?.data?.detail], when it is truthy. *)
Definition detail_of (e : JsError) : option JsValue :=
  match response_of e with
  | Some r =>
      let d := optional_prop (response_data r) "detail" in
      if truthyValue d then Some d else None
  | None => None
  end.

(** [error.response?.status === n] *)
Definition status_is (e : JsError) (n : Z) : bool :=
  match response_of e with
  | Some r => Z.eqb (status r) n
  | None => false
  end.

Definition checkHealth (net : Axios JsValue) : M bool :=
  try_catch
    (body <- request GetHealth net ;;
     st <- get_prop body "status" ;;
     let isHealthy := strict_eq_string st "healthy" in
     ret isHealthy)
    (fun _ => ret false).

(** The text of the error [sendMessage] rethrows: [errorMessage] as
    [new Error(errorMessage)] converts it. *)
Definition chatErrorMessage (e : JsError) : string :=
  match detail_of e with
  | Some d => toString d
  | None =>
      if JsString.includes (message e) "Network Error"
      then "Error de red. Verifica tu conexión."
      else if JsString.includes (message e) "timeout"
      then "Tiempo de espera agotado. Intenta nuevamente."
      else "Error al enviar mensaje"
  end.

Definition sendMessage (msg : string) (userId : option string)
    (net : Axios ApiResponse) : M ApiResponse :=
  let userId := default_arg "default" userId in
  try_catch
    (let requestData :=
       {| chat_message := msg;
          user_id := Some userId;
          clear_history := Some false |} in
     request (PostChat requestData) net)
    (fun e => throw (Error (chatErrorMessage e))).

Definition uploadErrorMessage (e : JsError) : string :=
  match detail_of e with
  | Some d => toString d
  | None =>
      if JsString.includes (message e) "Network Error"
      then "Error de red al subir PDF. Verifica tu conexión."
      else if JsString.includes (message e) "timeout"
      then "El PDF es demasiado grande o el servidor está tardando demasiado."
      else if status_is e 413
      then "El PDF es demasiado grande. Intenta con un archivo más pequeño."
      else if status_is e 415
      then "Formato de archivo no soportado. Asegúrate de que sea un PDF válido."
      else "Error al subir PDF"
  end.

Definition uploadPDF (fileUri fileName : string)
    (net : Axios ApiResponse) : M ApiResponse :=
  try_catch
    (let file :=
       {| file_uri := fileUri;
          file_type := "application/pdf";
          file_name := or_else (Some fileName) "document.pdf" |} in
     request (PostUploadPdf file) net)
    (fun e => throw (Error (uploadErrorMessage e))).

Definition askErrorMessage (e : JsError) : string :=
  match detail_of e with
  | Some d => toString d
  | None =>
      if JsString.includes (message e) "No PDF loaded"
      then "No hay PDF cargado. Primero sube un PDF."
      else if JsString.includes (message e) "Network Error"
      then "Error de red. Verifica tu conexión."
      else "Error al hacer pregunta sobre PDF"
  end.

Definition askPDF (question : string) (net : Axios ApiResponse)
    : M ApiResponse :=
  try_catch
    (request (PostAskPdf question) net)
    (fun e => throw (Error (askErrorMessage e))).

Definition clearErrorMessage (e : JsError) : string :=
  match detail_of e with
  | Some d => toString d
  | None => "Error al limpiar historial"
  end.

Definition clearHistory (userId : option string)
    (net : Axios ApiResponse) : M ApiResponse :=
  let userId := default_arg "default" userId in
  try_catch
    (request (PostClearHistory userId) net)
    (fun e => throw (Error (clearErrorMessage e))).

End ApiBilly.

(** ** [screens/ChatbotScreen.tsx] *)

Module ChatbotScreen.

Import JsString.

(** *** The state setters *)

Definition setMessages (f : list ChatMessage -> list ChatMessage) : M unit :=
  modify (with_ui (fun s =>
    {| messages := f (messages s); inputText := inputText s;
       isLoading := isLoading s; isServerConnected := isServerConnected s;
       currentPDF := currentPDF s; uploadingPDF := uploadingPDF s |})).

Definition setInputText (v : string) : M unit :=
  modify (with_ui (fun s =>
    {| messages := messages s; inputText := v;
       isLoading := isLoading s; isServerConnected := isServerConnected s;
       currentPDF := currentPDF s; uploadingPDF := uploadingPDF s |})).

Definition setIsLoading (v : bool) : M unit :=
  modify (with_ui (fun s =>
    {| messages := messages s; inputText := inputText s;
       isLoading := v; isServerConnected := isServerConnected s;
       currentPDF := currentPDF s; uploadingPDF := uploadingPDF s |})).

Definition setIsServerConnected (v : option bool) : M unit :=
  modify (with_ui (fun s =>
    {| messages := messages s; inputText := inputText s;
       isLoading := isLoading s; isServerConnected := v;
       currentPDF := currentPDF s; uploadingPDF := uploadingPDF s |})).

Definition setCurrentPDF (v : option PdfInfo) : M unit :=
  modify (with_ui (fun s =>
    {| messages := messages s; inputText := inputText s;
       isLoading := isLoading s; isServerConnected := isServerConnected s;
       currentPDF := v; uploadingPDF := uploadingPDF s |})).

Definition setUploadingPDF (v : bool) : M unit :=
  modify (with_ui (fun s =>
    {| messages := messages s; inputText := inputText s;
       isLoading := isLoading s; isServerConnected := isServerConnected s;
       currentPDF := currentPDF s; uploadingPDF := v |})).

(** *** The texts *)

Definition welcomeText : string :=
  "¡Hola! Soy Billy, tu asistente de investigación académica. Puedo ayudarte a:"
  ++ nl ++ nl
  ++ "📄 **Analizar PDFs** - Sube cualquier paper académico" ++ nl
  ++ "💬 **Chat académico** - Responde preguntas sobre investigación" ++ nl
  ++ "📚 **Explicar conceptos** - De cualquier área del conocimiento"
  ++ nl ++ nl
  ++ "¿En qué puedo ayudarte hoy?".

Definition restartText : string :=
  "¡Hola! Soy Billy, tu asistente de investigación académica. La conversación ha sido reiniciada."
  ++ nl ++ nl
  ++ "📄 Puedes subir PDFs usando el botón de abajo.".

Definition connectedText : string :=
  "✅ Servidor conectado. ¡Puedes subir PDFs y usar todas las funcionalidades!".
Definition unavailableText : string :=
  "⚠️ Servidor no disponible. Para analizar PDFs, asegúrate de que el servidor esté corriendo.".
Definition unreachableText : string :=
  "❌ No se pudo conectar con el servidor. Usando modo local.".
Definition offlineChatText : string :=
  "Estoy procesando tu consulta académica. Para analizar PDFs, asegúrate de que el servidor esté corriendo.".
Definition invalidReplyText : string :=
  "No recibí una respuesta válida del servidor.".
Definition uploadFirstText : string :=
  "Primero debes subir un PDF para hacer preguntas sobre él.".
Definition offlinePdfText : string :=
  "Para analizar PDFs, necesito conectarme al servidor. Asegúrate de que esté corriendo.".
Definition pdfFailedText : string :=
  "No pude analizar el PDF. Asegúrate de que esté bien formateado.".
Definition uploadFailedText : string :=
  "Error al subir el PDF. Intenta con otro archivo.".
Definition pdfRemovedText : string :=
  "📄 PDF eliminado. Puedes subir otro documento cuando quieras.".
Definition noPdfText : string :=
  "No hay PDF cargado actualmente.".

Definition askingText (question : string) : string :=
  "🤔 Preguntando sobre el PDF: " ++ dquote ++ question ++ dquote ++ "...".
Definition answerText (reply : string) : string :=
  "📄 **Respuesta basada en el PDF:**" ++ nl ++ nl ++ reply.
Definition uploadingText (fileName : string) : string :=
  "📤 Subiendo PDF: " ++ fileName ++ "...".
Definition analysisText (a : string) : string :=
  "📋 **Análisis inicial del PDF:**" ++ nl ++ nl ++ a.

(** [${response.pages || 'N/A'}] *)
Definition pagesText (p : option number) : string :=
  match p with
  | Some n => if number_truthy n then number_text n else "N/A"
  | None => "N/A"
  end.

(** [${response.size_kb ? `${response.size_kb} KB` : 'N/A'}] *)
Definition sizeText (k : option number) : string :=
  match k with
  | Some n => if number_truthy n then number_text n ++ " KB" else "N/A"
  | None => "N/A"
  end.

Definition uploadedText (fileName : string) (r : ApiResponse) : string :=
  "✅ **PDF subido exitosamente!**" ++ nl ++ nl
  ++ "📄 **Archivo:** " ++ fileName ++ nl
  ++ "📑 **Páginas:** " ++ pagesText (pages r) ++ nl
  ++ "📊 **Tamaño:** " ++ sizeText (size_kb r) ++ nl ++ nl
  ++ "💡 Ahora puedes hacer preguntas sobre este documento.".

(** Truthiness of an optional string field. *)
Definition present (o : option string) : bool :=
  match o with Some s => truthy s | None => false end.

(** *** The component *)

(** A greeting: its [id] is [Date.now()] as it is. *)
Definition greeting (body : string) : M ChatMessage :=
  now <- Date_now ;;
  stamp <- new_Date ;;
  ret {| id := inject_Z now; text := body; isBot := true;
         timestamp := stamp; type := Some text_; data := None |}.

(** The world right after the first render: the [useState] initialisers
    have run, nothing else has. *)
Definition mount (s : Sys) : World :=
  let blank :=
    {| ui := {| messages := []; inputText := ""; isLoading := false;
                isServerConnected := None; currentPDF := None;
                uploadingPDF := false |};
       requests := []; alerts := []; sys := s;
       clockReads := 0; randomDraws := 0 |} in
  exec (g <- greeting welcomeText ;; setMessages (fun _ => [g])) blank.

Definition addMessage (body : string) (bot : bool)
    (kind : option MessageType) (payload : option JsValue) : M unit :=
  let kind := default_arg text_ kind in
  now <- Date_now ;;
  rnd <- Math_random ;;
  stamp <- new_Date ;;
  let newMessage :=
    {| id := Qplus (inject_Z now) rnd;
       text := body;
       isBot := bot;
       timestamp := stamp;
       type := Some kind;
       data := payload |} in
  setMessages (fun prev => prev ++ [newMessage])%list.

Definition checkServerConnection (net : Axios JsValue) : M unit :=
  try_catch
    (connected <- ApiBilly.checkHealth net ;;
     setIsServerConnected (Some connected) ;;
     if connected
     then addMessage connectedText true None None
     else addMessage unavailableText true None None)
    (fun _ =>
       setIsServerConnected (Some false) ;;
       addMessage unreachableText true None None).

(** [isServerConnected === false] *)
Definition knownDisconnected (r : State) : bool :=
  match isServerConnected r with
  | Some false => true
  | _ => false
  end.

Definition handleNormalChat (r : State) (msg : string)
    (net : Axios ApiResponse) : M unit :=
  if knownDisconnected r
  then addMessage offlineChatText true None None
  else
    try_catch
      (reply <- ApiBilly.sendMessage msg None net ;;
       if success reply && present (response reply)
       then addMessage (the (response reply)) true None None
       else addMessage invalidReplyText true (Some error) None)
      (fun e => addMessage ("Error: " ++ message e) true (Some error) None).

Definition handlePDFQuestion (r : State) (question : string)
    (net : Axios ApiResponse) : M unit :=
  match currentPDF r with
  | None => addMessage uploadFirstText true None None
  | Some _ =>
      if knownDisconnected r
      then addMessage offlinePdfText true None None
      else
        try_catch
          (addMessage (askingText question) true (Some pdf_upload) None ;;
           reply <- ApiBilly.askPDF question net ;;
           if success reply && present (response reply)
           then addMessage (answerText (the (response reply))) true
                  (Some pdf_analysis) None
           else addMessage pdfFailedText true (Some error) None)
          (fun e =>
             addMessage ("Error analizando PDF: " ++ message e) true
               (Some error) None)
  end.

Definition sendMessage (r : State) (net : Axios ApiResponse) : M unit :=
  if String.eqb (trim (inputText r)) ""
  then ret tt
  else
    let userMessage := inputText r in
    addMessage userMessage false None None ;;
    setInputText "" ;;
    setIsLoading true ;;
    try_finally
      (try_catch
         (match currentPDF r with
          | Some _ => handlePDFQuestion r userMessage net
          | None => handleNormalChat r userMessage net
          end)
         (fun e =>
            addMessage ("❌ Error: " ++ message e) true (Some error) None))
      (setIsLoading false).

Definition uploadPDF (r : State) (fileUri fileName : string)
    (net : Axios ApiResponse) : M unit :=
  if knownDisconnected r
  then Alert_alert "Servidor no disponible"
  else
    try_catch
      (addMessage (uploadingText fileName) true (Some pdf_upload) None ;;
       reply <- ApiBilly.uploadPDF fileUri fileName net ;;
       if success reply
       then
         setCurrentPDF
           (Some {| name := fileName;
                    pdf_analysis_of := analysis reply;
                    pdf_preview := preview reply;
                    pdf_pages := pages reply;
                    pdf_size_kb := size_kb reply |}) ;;
         addMessage (uploadedText fileName reply) true (Some pdf) None ;;
         if present (analysis reply)
         then addMessage (analysisText (the (analysis reply))) true
                (Some pdf_analysis) None
         else ret tt
       else addMessage uploadFailedText true (Some error) None)
      (fun e =>
         addMessage ("Error subiendo PDF: " ++ message e) true
           (Some error) None).

(** What [DocumentPicker.pick] gives back: the chosen file, or an error
    with a [code] (the user cancelled, permission denied, ...). *)
Inductive Picked : Type :=
| PickedFile (uri : string) (fileName : option string)
| PickFailed (e : JsError).

Definition codeIs (e : JsError) (c : string) : bool :=
  match code e with
  | Some k => String.eqb k c
  | None => false
  end.

Definition pickPDF (r : State) (picked : Picked)
    (net : Axios ApiResponse) : M unit :=
  try_finally
    (try_catch
       (setUploadingPDF true ;;
        match picked with
        | PickFailed e => throw e
        | PickedFile uri fileName =>
            let fileUri := uri in
            let fileName := or_else fileName "documento.pdf" in
            uploadPDF r fileUri fileName net
        end)
       (fun e =>
          if codeIs e "DOCUMENT_PICKER_CANCELED" then ret tt
          else if codeIs e "PERMISSION_DENIED"
          then Alert_alert "Permiso denegado"
          else if codeIs e "UNSUPPORTED_TYPE"
          then Alert_alert "Formato no soportado"
          else Alert_alert "Error"))
    (setUploadingPDF false).

(** [confirm]: the user pressed "Limpiar" in the alert, not "Cancelar". *)
Definition clearPDF (r : State) (confirm : bool) : M unit :=
  match currentPDF r with
  | Some _ =>
      Alert_alert "Limpiar PDF actual" ;;
      if confirm
      then
        setCurrentPDF None ;;
        addMessage pdfRemovedText true None None
      else ret tt
  | None => addMessage noPdfText true None None
  end.

Definition clearChat (r : State) (confirm : bool)
    (net : Axios ApiResponse) : M unit :=
  Alert_alert "Limpiar conversación" ;;
  if confirm
  then
    try_catch
      (ApiBilly.clearHistory None net ;; ret tt)
      (fun _ => ret tt) ;;
    g <- greeting restartText ;;
    setMessages (fun _ => [g]) ;;
    setCurrentPDF None
  else ret tt.

(** *** The user and the network, as a sequence of events *)

(** Each event is one handler run, from its trigger to the end of its
    last continuation.  [Probe] is the health probe of the mount effect;
    [Submit] is the user typing [input] into the text field
    ([onChangeText]) and pressing send. *)
Inductive Event : Type :=
| Probe (net : Axios JsValue)
| Submit (input : string) (net : Axios ApiResponse)
| PickPdf (picked : Picked) (net : Axios ApiResponse)
| ClearPdf (confirm : bool)
| ClearChat (confirm : bool) (net : Axios ApiResponse).

(** Run a handler of the current render. *)
Definition handler (h : State -> M unit) : M unit := fun w => h (ui w) w.

Definition fire (ev : Event) : M unit :=
  match ev with
  | Probe net => checkServerConnection net
  | Submit input net =>
      setInputText input ;; handler (fun r => sendMessage r net)
  | PickPdf picked net => handler (fun r => pickPDF r picked net)
  | ClearPdf confirm => handler (fun r => clearPDF r confirm)
  | ClearChat confirm net => handler (fun r => clearChat r confirm net)
  end.

Fixpoint run (evs : list Event) (w : World) : World :=
  match evs with
  | [] => w
  | ev :: rest => run rest (exec (fire ev) w)
  end.

End ChatbotScreen.

(** ** The rest of [services/apiBilly.ts] *)

(** The methods the screen does not call.  [searchPapers] and
    [generateCitation] touch nothing but the transport, so each is given as
    the body it posts together with the way the call completes for the
    outcome [net] of that post. *)
Module ApiBillyRest.

Definition API_BASE_URL : string := "http://10.0.2.2:8000".







(** What [testConnection] resolves to. *)
Record ConnectionReport : Type := mkConnectionReport {
  connected : bool;
  report_message : string;
  url : string;
  report_status : option Z
}.

(** [okStatus] is the status code of the response when the request
    resolves. *)
Definition testConnection (okStatus : Z) (net : Axios JsValue)
    : M ConnectionReport :=
  try_catch
    (startTime <- Date_now ;;
     _ <- request GetHealth net ;;
     endTime <- Date_now ;;
     let responseTime := (endTime - startTime)%Z in
     ret {| connected := true;
            report_message :=
              "Conectado al servidor ("
              ++ number_text (number_of_Z responseTime) ++ "ms)";
            url := API_BASE_URL;
            report_status := Some okStatus |})
    (fun e =>
       ret {| connected := false;
              report_message :=
                "No se pudo conectar a " ++ API_BASE_URL ++ ": " ++ message e;
              url := API_BASE_URL;
              report_status :=
                match response_of e with
                | Some r => Some (status r)
                | None => None
                end |}).

End ApiBillyRest.

(** ** The rest of [screens/ChatbotScreen.tsx] *)

(** [showPDFInfo], and what the rendered tree lets the user do. *)
Module ChatbotScreenView.

Import JsString ChatbotScreen.

Definition showPDFInfo (r : State) : M unit :=
  match currentPDF r with
  | Some _ => Alert_alert "📄 PDF Actual"
  | None => Alert_alert "Sin PDF"
  end.

(** [editable={!isLoading && !uploadingPDF}] of the text field. *)
Definition inputEditable (s : State) : bool :=
  negb (isLoading s) && negb (uploadingPDF s).

(** [disabled={!inputText.trim() || isLoading || uploadingPDF}] of the
    send button. *)
Definition sendDisabled (s : State) : bool :=
  negb (truthy (trim (inputText s))) || isLoading s || uploadingPDF s.

(** [disabled={uploadingPDF || isLoading}] of the upload button. *)
Definition pickDisabled (s : State) : bool :=
  uploadingPDF s || isLoading s.

(** The clear-document cross is rendered only with a document in the
    slot: [{currentPDF && (...)}]. *)
Definition clearPdfShown (s : State) : bool :=
  match currentPDF s with Some _ => true | None => false end.

End ChatbotScreenView.

(** * The vocabulary of the properties *)

Module Spec.

Import JsString ChatbotScreen.

Definition transcript (w : World) : list ChatMessage := messages (ui w).

(** [m] is the message [addMessage(body, bot, kind)] makes. *)
Definition says (m : ChatMessage) (body : string) (bot : bool)
    (kind : MessageType) : Prop :=
  text m = body /\ isBot m = bot /\ type m = Some kind /\ data m = None.

Definition hasType (k : MessageType) (m : ChatMessage) : bool :=
  match type m with
  | Some t => MessageType_eqb t k
  | None => false
  end.

(** The messages about the document: the three [pdf...] types. *)
Definition pdfNotice (m : ChatMessage) : bool :=
  hasType pdf m || hasType pdf_upload m || hasType pdf_analysis m.

Definition count (p : ChatMessage -> bool) (l : list ChatMessage) : nat :=
  List.length (filter p l).

(** [v.key] is [x]: the first binding of [key] among the fields of the
    object [v]. *)
Inductive Field : JsValue -> string -> JsValue -> Prop :=
| Field_here (key : string) (x : JsValue) (rest : list (string * JsValue)) :
    Field (JsObject ((key, x) :: rest)) key x
| Field_later (k key : string) (y x : JsValue)
    (rest : list (string * JsValue)) :
    k <> key -> Field (JsObject rest) key x ->
    Field (JsObject ((k, y) :: rest)) key x.

(** [needle] occurs in [hay]. *)
Definition contains (hay needle : string) : Prop :=
  exists before after, hay = before ++ needle ++ after.

(** The body of the error response has a truthy [detail], namely [v]. *)
Definition carriesDetail (e : JsError) (v : JsValue) : Prop :=
  exists r,
    response_of e = Some r
    /\ Field (response_data r) "detail" v
    /\ truthyValue v = true.

(** There is no error response, or its body has no [detail], or a falsy
    one. *)
Definition noDetail (e : JsError) : Prop :=
  forall r v,
    response_of e = Some r -> Field (response_data r) "detail" v ->
    truthyValue v = false.

(** The error response has status [n]. *)
Definition hasStatus (e : JsError) (n : Z) : Prop :=
  exists r, response_of e = Some r /\ status r = n.

(** The health endpoint answered [{status: "healthy", ...}]. *)
Definition healthy (body : JsValue) : Prop :=
  Field body "status" (JsText "healthy").

(** The session identity of a request: the chat and clear-history bodies
    name the user ["default"], and a chat body never asks to clear. *)
Definition usesDefaultUser (req : Request) : Prop :=
  match req with
  | PostChat body =>
      user_id body = Some "default" /\ clear_history body = Some false
  | PostClearHistory userId => userId = "default"
  | _ => True
  end.

Definition isChat (req : Request) : bool :=
  match req with PostChat _ => true | _ => false end.

Definition isAskPdf (req : Request) : bool :=
  match req with PostAskPdf _ => true | _ => false end.

(** The events that clear the document: a confirmed "clear PDF" and a
    confirmed "clear conversation". *)
Definition clears (ev : Event) : bool :=
  match ev with
  | ClearPdf true | ClearChat true _ => true
  | _ => false
  end.

(** The requests a handler run added to those of [w]. *)
Definition issued (w w' : World) (new : list Request) : Prop :=
  requests w' = (requests w ++ new)%list.

(** The messages a handler run appended to the transcript of [w]. *)
Definition appended (w w' : World) (new : list ChatMessage) : Prop :=
  transcript w' = (transcript w ++ new)%list.

Definition notBlank (input : string) : bool :=
  negb (String.eqb (trim input) "").

(** The body of the chat request for [input]. *)
Definition chatBody (input : string) : ChatRequest :=
  {| chat_message := input; user_id := Some "default";
     clear_history := Some false |}.

(** How many assistant messages one submission adds in state [s]: the
    document path, when the server is not known to be down, announces the
    question before it answers. *)
Definition repliesPerSubmission (s : State) : nat :=
  match currentPDF s with
  | Some _ => if knownDisconnected s then 1 else 2
  | None => 1
  end.

Definition submissions (subs : list (string * Axios ApiResponse))
    : list Event :=
  map (fun s => Submit (fst s) (snd s)) subs.

Definition nonBlank (subs : list (string * Axios ApiResponse)) : nat :=
  List.length (filter (fun s => notBlank (fst s)) subs).

(** *** Sample inputs *)

(** A clock that advances one millisecond per reading and a generator
    whose draws differ. *)
Definition tickingSys : Sys :=
  {| dateNow := fun n => (1700000000000 + Z.of_nat n)%Z;
     mathRandom := fun n => Qmake 1 (Pos.of_nat (n + 2)) |}.

(** A clock read several times within one millisecond, and a generator
    that returns the same draw again. *)
Definition frozenSys : Sys :=
  {| dateNow := fun _ => 1700000000000%Z;
     mathRandom := fun _ => Qmake 1 2 |}.

(** A clock read several times within one millisecond, and draws of 0. *)
Definition zeroSys : Sys :=
  {| dateNow := fun _ => 1700000000000%Z;
     mathRandom := fun _ => Qmake 0 1 |}.

Definition okReply (body : string) : ApiResponse :=
  {| success := true; response := Some body; analysis := None;
     preview := None; pages := None; size_kb := None |}.

Definition paperReply : ApiResponse :=
  {| success := true; response := None; analysis := Some "Summary...";
     preview := None; pages := Some (number_of_Z 12);
     size_kb := Some (number_of_Z 340) |}.

Definition paperFile : Picked :=
  PickedFile "file:///downloads/paper.pdf" (Some "paper.pdf").

Definition unhealthyBody : JsValue :=
  JsObject [("status", JsText "degraded")].

Definition healthyBody : JsValue :=
  JsObject [("status", JsText "healthy")].

Definition networkError : JsError :=
  {| message := "Network Error"; code := Some "ERR_NETWORK";
     response_of := None |}.


(** A 500 whose body says why, as FastAPI does. *)
Definition overloaded : JsError :=
  {| message := "Request failed with status code 500";
     code := Some "ERR_BAD_RESPONSE";
     response_of :=
       Some {| status := 500;
               response_data :=
                 JsObject [("detail", JsText "Model overloaded")] |} |}.

(** A 404 with an HTML body: nothing to classify by. *)
Definition notFound : JsError :=
  {| message := "Request failed with status code 404";
     code := Some "ERR_BAD_REQUEST";
     response_of :=
       Some {| status := 404; response_data := JsText "<html></html>" |} |}.

Definition unsupportedFormat : JsError :=
  {| message := "Request failed with status code 415";
     code := Some "ERR_BAD_REQUEST";
     response_of := Some {| status := 415; response_data := JsText "" |} |}.

End Spec.

(** * More vocabulary *)

Module Spec2.

Import JsString ChatbotScreen Spec.

(** The confirmed clear-conversation, the one event that rewrites the
    transcript. *)
Definition resetsChat (ev : Event) : bool :=
  match ev with
  | ClearChat true _ => true
  | _ => false
  end.

Definition isProbe (ev : Event) : bool :=
  match ev with
  | Probe _ => true
  | _ => false
  end.

(** [l] starts with [p]. *)
Definition startsWith (p l : list ChatMessage) : Prop :=
  exists more, l = (p ++ more)%list.

(** A greeting, as both [useState] and [clearChat] make it. *)
Definition isGreeting (m : ChatMessage) : Prop :=
  isBot m = true /\ type m = Some text_ /\ data m = None
  /\ (text m = welcomeText \/ text m = restartText)
  /\ exists now : Z, id m = inject_Z now.

(** An upload request as the server expects it: a named file declared as a
    PDF. *)
Definition wellFormedUpload (req : Request) : Prop :=
  match req with
  | PostUploadPdf file =>
      file_name file <> "" /\ file_type file = "application/pdf"
  | _ => True
  end.

(** The error ends up as [new Error(msg)]: nothing of the transport's
    error but a text is left. *)
Definition throwsPlain {A : Type} (c : Completion A) (msg : string) : Prop :=
  c = Thrown (Error msg).

(** What the user has said, in order: the texts of the messages that are
    not the assistant's. *)
Definition userTexts (l : list ChatMessage) : list string :=
  map text (filter (fun m => negb (isBot m)) l).

(** What the user has submitted, in order, blank inputs left out. *)
Definition typed (evs : list Event) : list string :=
  flat_map
    (fun ev =>
       match ev with
       | Submit input _ => if notBlank input then [input] else []
       | _ => []
       end) evs.



End Spec2.

(** * Properties *)

(** ** Blank strings and [trim] *)

Module TrimFacts.

Import JsString.

Lemma trimStart_skip (w s : string) :
  In w whiteSpace -> trimStart (w ++ s) = trimStart s.
Proof.
  unfold whiteSpace. cbn [map bytes fold_right In].
  intros H.
  repeat (destruct H as [H | H]; [subst w; reflexivity | ]).
  contradiction.
Qed.

Lemma Blank_trimStart (s : string) : Blank s -> trimStart s = "".
Proof.
  induction 1 as [| w s Hw _ IH].
  - reflexivity.
  - rewrite trimStart_skip by assumption. exact IH.
Qed.

Ltac pick_member :=
  unfold whiteSpace; cbn [map bytes fold_right In];
  repeat first [ left; reflexivity | right ].

Lemma ws1_member (a : ascii) :
  ws1 a = true -> In (String a "") whiteSpace.
Proof.
  unfold ws1. cbv zeta.
  pose proof (ascii_nat_embedding a) as Ea. revert Ea.
  generalize (nat_of_ascii a). intros x Ea H. subst a.
  repeat rewrite ?orb_true_iff, ?andb_true_iff, ?Nat.eqb_eq, ?Nat.leb_le in H.
  assert (C : (x = 9 \/ x = 10 \/ x = 11 \/ x = 12 \/ x = 13 \/ x = 32)%nat)
    by lia.
  clear H.
  repeat (destruct C as [C | C]; [subst x; pick_member | ]).
  subst x; pick_member.
Qed.

Lemma ws2_member (a b : ascii) :
  ws2 a b = true -> In (String a (String b "")) whiteSpace.
Proof.
  unfold ws2. intros H.
  apply andb_prop in H. destruct H as [Ha Hb].
  apply Nat.eqb_eq in Ha, Hb.
  apply (f_equal ascii_of_nat) in Ha, Hb.
  rewrite ascii_nat_embedding in Ha, Hb. subst a b.
  pick_member.
Qed.

Lemma ws3_member (a b c : ascii) :
  ws3 a b c = true -> In (String a (String b (String c ""))) whiteSpace.
Proof.
  unfold ws3.
  pose proof (ascii_nat_embedding a) as Ea.
  pose proof (ascii_nat_embedding b) as Eb.
  pose proof (ascii_nat_embedding c) as Ec.
  revert Ea Eb Ec.
  generalize (nat_of_ascii a) (nat_of_ascii b) (nat_of_ascii c).
  intros x y z Ea Eb Ec H. subst a b c.
  repeat rewrite ?orb_true_iff, ?andb_true_iff, ?Nat.eqb_eq, ?Nat.leb_le in H.
  assert (C : ((x = 225 /\ y = 154 /\ z = 128)
           \/ (x = 226 /\ y = 128 /\
               (z = 128 \/ z = 129 \/ z = 130 \/ z = 131 \/ z = 132 \/ z = 133
                \/ z = 134 \/ z = 135 \/ z = 136 \/ z = 137 \/ z = 138
                \/ z = 168 \/ z = 169 \/ z = 175))
           \/ (x = 226 /\ y = 129 /\ z = 159)
           \/ (x = 227 /\ y = 128 /\ z = 128)
           \/ (x = 239 /\ y = 187 /\ z = 191))%nat) by lia.
  clear H.
  repeat match goal with
         | H : _ \/ _ |- _ => destruct H as [H | H]
         | H : _ /\ _ |- _ => destruct H as [? H]
         end; subst x y z; pick_member.
Qed.

Lemma trimStart_Blank_bounded (n : nat) :
  forall s, (String.length s <= n)%nat -> trimStart s = "" -> Blank s.
Proof.
  induction n as [| n IH]; intros s Hn H.
  - destruct s; [constructor | cbn in Hn; lia].
  - destruct s as [| a s1]; [constructor | ].
    cbn [String.length] in Hn. cbn [trimStart] in H.
    destruct (ws1 a) eqn:E1.
    { apply (Blank_more (String a "") s1).
      - now apply ws1_member.
      - apply IH; [lia | exact H]. }
    destruct s1 as [| b s2]; [discriminate H | ].
    cbn [String.length] in Hn.
    destruct (ws2 a b) eqn:E2.
    { apply (Blank_more (String a (String b "")) s2).
      - now apply ws2_member.
      - apply IH; [lia | exact H]. }
    destruct s2 as [| c s3]; [discriminate H | ].
    cbn [String.length] in Hn.
    destruct (ws3 a b c) eqn:E3; [ | discriminate H].
    apply (Blank_more (String a (String b (String c ""))) s3).
    + now apply ws3_member.
    + apply IH; [lia | exact H].
Qed.

Lemma trimStart_Blank (s : string) : trimStart s = "" <-> Blank s.
Proof.
  split.
  - apply (trimStart_Blank_bounded (String.length s)). lia.
  - apply Blank_trimStart.
Qed.

Lemma trimStart_fixed_bounded (n : nat) :
  forall s, (String.length s <= n)%nat ->
    trimStart (trimStart s) = trimStart s.
Proof.
  induction n as [| n IH]; intros s Hn.
  - destruct s; [reflexivity | cbn in Hn; lia].
  - destruct s as [| a s1]; [reflexivity | ].
    cbn [String.length] in Hn. cbn [trimStart].
    destruct (ws1 a) eqn:E1; [apply IH; lia | ].
    destruct s1 as [| b s2].
    { cbn [trimStart]. now rewrite E1. }
    cbn [String.length] in Hn.
    destruct (ws2 a b) eqn:E2; [apply IH; lia | ].
    destruct s2 as [| c s3].
    { cbn [trimStart]. now rewrite E1, E2. }
    cbn [String.length] in Hn.
    destruct (ws3 a b c) eqn:E3; [apply IH; lia | ].
    cbn [trimStart]. now rewrite E1, E2, E3.
Qed.

Lemma trimStart_fixed (s : string) : trimStart (trimStart s) = trimStart s.
Proof. apply (trimStart_fixed_bounded (String.length s)). lia. Qed.

(** The guard of [sendMessage], [inputText.trim() === ''], holds exactly
    of the blank strings. *)
Lemma trim_empty_iff_Blank (s : string) : trim s = "" <-> Blank s.
Proof.
  rewrite <- trimStart_Blank. unfold trim. split.
  - intros H. pose proof (trimStart_fixed s) as F.
    destruct (trimStart s) as [| a r] eqn:E; [reflexivity | ].
    cbn [trimEnd] in H. rewrite F in H. discriminate H.
  - intros ->. reflexivity.
Qed.

Lemma guard_blank (s : string) : Blank s -> String.eqb (trim s) "" = true.
Proof. intros H. apply String.eqb_eq. now apply trim_empty_iff_Blank. Qed.

Lemma guard_not_blank (s : string) :
  ~ Blank s -> String.eqb (trim s) "" = false.
Proof.
  intros H. apply String.eqb_neq. intros E. apply H.
  now apply trim_empty_iff_Blank.
Qed.

End TrimFacts.

Local Open Scope js_scope.

(** ** Running the handlers *)

Module HandlerFacts.

Import JsString ChatbotScreen Spec TrimFacts.

(** Unfold the handler code down to functions on worlds. *)
Ltac unfold_handlers :=
  unfold fire, handler, sendMessage, handleNormalChat, handlePDFQuestion,
    pickPDF, uploadPDF, clearPDF, clearChat, checkServerConnection,
    ApiBilly.checkHealth, ApiBilly.sendMessage, ApiBilly.uploadPDF,
    ApiBilly.askPDF, ApiBilly.clearHistory,
    addMessage, greeting, setMessages, setInputText, setIsLoading,
    setIsServerConnected, setCurrentPDF, setUploadingPDF,
    Alert_alert, Date_now, new_Date, Math_random, request, get_prop,
    modify, with_ui, try_catch, try_finally, bind, ret, throw, exec,
    default_arg, issued, appended, transcript, says in *.

(** Case analysis on whatever the code branches on next. *)
Ltac branch :=
  match goal with
  | |- context [match ?x with _ => _ end] =>
      lazymatch x with
      | context [match _ with _ => _ end] => fail
      | _ => destruct x eqn:?
      end
  end.

Ltac branches := repeat (branch; cbn in * ).

(** Close a goal about the final world: lists are compared modulo the
    nesting of [++]. *)
Ltac settle :=
  cbn; rewrite <- ?app_assoc; cbn [app];
  first [ reflexivity | congruence | now auto ].

(** Close a case of the form "if the call ended this way, then ...":
    either the call ended otherwise, or the world is as stated. *)
Ltac by_outcome :=
  intros;
  repeat match goal with
         | H : Resolved _ = Resolved _ |- _ => injection H as H; subst
         | H : Rejected _ = Rejected _ |- _ => injection H as H; subst
         | H : Some _ = Some _ |- _ => injection H as H; subst
         | H : _ \/ _ |- _ => destruct H
         end;
  first [ reflexivity | congruence ].

Lemma Field_find (fields : list (string * JsValue)) (key : string)
    (x : JsValue) :
  Field (JsObject fields) key x <->
  exists k, find (fun kv => String.eqb (fst kv) key) fields = Some (k, x).
Proof.
  split.
  - induction fields as [| [k0 y] rest IH]; intros F.
    + inversion F.
    + inversion F as [key' x' rest' | k' key' y' x' rest' Hk F']; subst.
      * exists key. cbn. now rewrite String.eqb_refl.
      * destruct (IH F') as [k' Hk']. exists k'. cbn.
        apply String.eqb_neq in Hk. now rewrite Hk.
  - intros [k H]. induction fields as [| [k0 y] rest IH]; [discriminate H | ].
    cbn in H. destruct (String.eqb k0 key) eqn:E.
    + apply String.eqb_eq in E. injection H as -> ->. subst. constructor.
    + apply String.eqb_neq in E. constructor; auto.
Qed.

Lemma not_blank_guard (r : State) :
  ~ Blank (inputText r) -> String.eqb (trim (inputText r)) "" = false.
Proof. apply guard_not_blank. Qed.

End HandlerFacts.

Import JsString ChatbotScreen Spec TrimFacts HandlerFacts.

(** ** The client's error texts *)

Lemma prefix_app (needle hay : string) :
  prefix needle hay = true <-> exists after, hay = needle ++ after.
Proof.
  revert hay. induction needle as [| a n IH]; intros hay.
  - split; [intros _; now exists hay | intros _; now destruct hay].
  - destruct hay as [| b h]; cbn.
    + split; [discriminate | intros [after E]; discriminate E].
    + destruct (ascii_dec a b) as [-> | Hab].
      * rewrite IH. split; intros [after E]; exists after;
          [now rewrite E | now injection E].
      * split; [discriminate | ].
        intros [after E]. injection E as E1 _. congruence.
Qed.

(** [includes] finds exactly the occurrences. *)
Lemma includes_contains (hay needle : string) :
  includes hay needle = true <-> contains hay needle.
Proof.
  unfold contains. split.
  - induction hay as [| c r IH]; cbn [includes].
    + destruct (prefix needle "") eqn:P; [ | discriminate].
      intros _. apply prefix_app in P. destruct P as [after E].
      now exists "", after.
    + destruct (prefix needle (String c r)) eqn:P.
      * intros _. apply prefix_app in P. destruct P as [after E].
        now exists "", after.
      * intros H. destruct (IH H) as (before & after & E).
        exists (String c before), after. cbn. now rewrite E.
  - intros (before & after & E). subst hay.
    induction before as [| c p IH].
    + cbn [append].
      assert (P : prefix needle (needle ++ after) = true)
        by (apply prefix_app; now exists after).
      destruct (needle ++ after); cbn [includes]; now rewrite P.
    + cbn [append includes].
      destruct (prefix needle (String c (p ++ needle ++ after)));
        [reflexivity | exact IH].
Qed.

Lemma includes_not_contains (hay needle : string) :
  includes hay needle = false <-> ~ contains hay needle.
Proof.
  rewrite <- includes_contains. now destruct (includes hay needle).
Qed.

Lemma optional_prop_Field (v : JsValue) (key : string) (x : JsValue) :
  Field v key x -> optional_prop v key = x.
Proof.
  intros F. assert (exists fields, v = JsObject fields) as [fields ->]
    by (inversion F; eauto).
  apply Field_find in F. destruct F as [k F]. cbn. now rewrite F.
Qed.

Lemma truthy_optional_prop (v : JsValue) (key : string) :
  truthyValue (optional_prop v key) = true ->
  Field v key (optional_prop v key).
Proof.
  destruct v; cbn; try discriminate.
  destruct (find (fun kv => String.eqb (fst kv) key) fields)
    as [[k x] | ] eqn:F; cbn; [ | discriminate].
  intros _. apply Field_find. now exists k.
Qed.

Lemma detail_of_carries (e : JsError) (v : JsValue) :
  ApiBilly.detail_of e = Some v <-> carriesDetail e v.
Proof.
  unfold ApiBilly.detail_of, carriesDetail. split.
  - destruct (response_of e) as [r | ]; [ | discriminate].
    cbv zeta.
    destruct (truthyValue (optional_prop (response_data r) "detail")) eqn:T;
      [ | discriminate].
    intros E. injection E as <-. exists r.
    split; [reflexivity | ]. split; [ | exact T].
    now apply truthy_optional_prop.
  - intros (r & -> & F & T). cbv zeta.
    rewrite (optional_prop_Field _ _ _ F), T. reflexivity.
Qed.

Lemma detail_of_none (e : JsError) :
  ApiBilly.detail_of e = None <-> noDetail e.
Proof.
  unfold ApiBilly.detail_of, noDetail. split.
  - intros H r v Hr F. rewrite Hr in H. cbv zeta in H.
    rewrite (optional_prop_Field _ _ _ F) in H.
    now destruct (truthyValue v).
  - intros H. destruct (response_of e) as [r | ]; [ | reflexivity].
    cbv zeta.
    destruct (truthyValue (optional_prop (response_data r) "detail")) eqn:T;
      [ | reflexivity].
    pose proof (H r _ eq_refl (truthy_optional_prop _ _ T)) as F.
    congruence.
Qed.

Lemma status_is_hasStatus (e : JsError) (n : Z) :
  ApiBilly.status_is e n = true <-> hasStatus e n.
Proof.
  unfold ApiBilly.status_is, hasStatus.
  destruct (response_of e) as [r | ].
  - rewrite Z.eqb_eq. split; [intros H; now exists r | ].
    intros (r' & E & H). now injection E as <-.
  - split; [discriminate | intros (r' & E & _); discriminate E].
Qed.

(** Rewrite the tests of a classifier into what they mean. *)
Ltac classify e :=
  repeat match goal with
         | H : noDetail e |- _ => apply detail_of_none in H; rewrite H
         | H : carriesDetail e _ |- _ =>
             apply detail_of_carries in H; rewrite H
         | H : contains _ _ |- _ => apply includes_contains in H; rewrite H
         | H : ~ contains _ _ |- _ =>
             apply includes_not_contains in H; rewrite H
         | H : hasStatus e _ |- _ => apply status_is_hasStatus in H; rewrite H
         | H : ~ hasStatus e _ |- _ =>
             apply (proj2 (not_iff_compat (status_is_hasStatus _ _))) in H;
             apply not_true_is_false in H; rewrite H
         end;
  reflexivity.

(** The text of the error [ApiBilly.sendMessage] rethrows, by the kind of
    failure: the server's [detail] (as a string) whenever there is a truthy
    one; otherwise a network text when the transport's message mentions
    "Network Error", a timeout text when it mentions "timeout", and a
    generic text for the rest. *)
Lemma chat_error_classes (e : JsError) :
  (forall v, carriesDetail e v -> ApiBilly.chatErrorMessage e = toString v)
  /\ (noDetail e -> contains (message e) "Network Error" ->
      ApiBilly.chatErrorMessage e = "Error de red. Verifica tu conexión.")
  /\ (noDetail e -> ~ contains (message e) "Network Error" ->
      contains (message e) "timeout" ->
      ApiBilly.chatErrorMessage e
      = "Tiempo de espera agotado. Intenta nuevamente.")
  /\ (noDetail e -> ~ contains (message e) "Network Error" ->
      ~ contains (message e) "timeout" ->
      ApiBilly.chatErrorMessage e = "Error al enviar mensaje").
Proof.
  unfold ApiBilly.chatErrorMessage.
  repeat apply conj; intros; classify e.
Qed.

(** ** The session *)

(** A blank submission, as an event: the text field holds what the user
    typed and nothing else has changed. *)
Lemma blank_submission_is_noop_step (input : string)
    (net : Axios ApiResponse) (w : World) :
  Blank input ->
  let w' := exec (fire (Submit input net)) w in
  transcript w' = transcript w
  /\ currentPDF (ui w') = currentPDF (ui w)
  /\ isLoading (ui w') = isLoading (ui w)
  /\ isServerConnected (ui w') = isServerConnected (ui w)
  /\ uploadingPDF (ui w') = uploadingPDF (ui w)
  /\ requests w' = requests w
  /\ alerts w' = alerts w.
Proof.
  intros B. pose proof (guard_blank _ B) as G.
  unfold fire, handler, sendMessage, setInputText, modify, with_ui, bind,
    exec, transcript.
  cbn. rewrite G. cbn. repeat split.
Qed.

(** C8.  Submitting an empty or white-space-only input does nothing: the
    handler returns at once and leaves the whole world as it was, so the
    transcript, the document slot, the pending flag and the connectivity
    flag keep their values and no request is issued; as an event, only the
    text field holds what the user typed. *)
Theorem blank_submission_is_noop (input : string) (net : Axios ApiResponse)
    (w : World) :
  Blank input ->
  (forall r, inputText r = input -> sendMessage r net w = (Returned tt, w))
  /\ (let w' := exec (fire (Submit input net)) w in
      transcript w' = transcript w
      /\ currentPDF (ui w') = currentPDF (ui w)
      /\ isLoading (ui w') = isLoading (ui w)
      /\ isServerConnected (ui w') = isServerConnected (ui w)
      /\ uploadingPDF (ui w') = uploadingPDF (ui w)
      /\ requests w' = requests w
      /\ alerts w' = alerts w).
Proof.
  intros B. pose proof (guard_blank _ B) as G. split.
  - intros r <-. unfold sendMessage. now rewrite G.
  - now apply blank_submission_is_noop_step.
Qed.

Lemma blank_submission_is_noop_witness :
  let w := mount tickingSys in
  let input := bytes [32; 9; 226; 128; 131; 10] in
  Blank input
  /\ transcript (exec (fire (Submit input (Resolved (okReply "hi")))) w)
     = transcript w
  /\ requests (exec (fire (Submit input (Resolved (okReply "hi")))) w)
     = requests w.
Proof.
  cbv zeta.
  assert (B : Blank (bytes [32; 9; 226; 128; 131; 10])).
  { apply trim_empty_iff_Blank. reflexivity. }
  split; [exact B | ].
  pose proof (proj2 (blank_submission_is_noop _ (Resolved (okReply "hi"))
                       (mount tickingSys) B)) as H.
  cbv zeta in H. split; [apply H | apply H].
Defined.

(** C6.  [checkHealth] never throws.  Whatever the transport does, it
    returns a boolean after one request to the health endpoint, and that
    boolean is [true] exactly when the request resolved with a body whose
    [status] is the string "healthy"; every other body and every rejection
    (no route, timeout, a status outside 2xx) gives [false]. *)
Theorem checkHealth_never_raises (net : Axios JsValue) (w : World) :
  exists (b : bool) (w' : World),
    ApiBilly.checkHealth net w = (Returned b, w')
    /\ ui w' = ui w
    /\ issued w w' [GetHealth]
    /\ (b = true <-> exists body, net = Resolved body /\ healthy body).
Proof.
  unfold healthy.
  destruct net as [body | e].
  - destruct body as [ | | b | n | s | items | fields ];
      try (exists false; eexists; unfold_handlers; cbn;
           repeat split; try discriminate;
           intros (body & E & F); injection E as <-; inversion F).
    unfold_handlers. cbn.
    destruct (find (fun kv => String.eqb (fst kv) "status") fields)
      as [[k v] | ] eqn:Hf; cbn.
    + exists (strict_eq_string v "healthy"). eexists.
      repeat split.
      * intros Hv. exists (JsObject fields). split; [reflexivity | ].
        apply Field_find. exists k. rewrite Hf.
        destruct v; try discriminate Hv. cbn in Hv.
        apply String.eqb_eq in Hv. now subst.
      * intros (body & E & F). injection E as <-.
        apply Field_find in F. destruct F as [k' F].
        rewrite Hf in F. injection F as _ ->. reflexivity.
    + exists false. eexists. repeat split; try discriminate.
      intros (body & E & F). injection E as <-.
      apply Field_find in F. destruct F as [k' F]. congruence.
  - exists false. eexists. unfold_handlers. cbn.
    repeat split; try discriminate.
    intros (body & E & _). discriminate E.
Qed.

(** C7.  The confirmed clear-conversation action asks the server to clear
    the history of the default user and ignores how that request ends: the
    handler returns normally whether the request resolved or was rejected,
    the transcript is then exactly one greeting (no error message), the
    document slot is empty, and the component's state is the same for every
    outcome of the request. *)
Theorem clearChat_swallows_and_resets (r : State) (net : Axios ApiResponse)
    (w : World) :
  exists (w' : World) (g : ChatMessage),
    clearChat r true net w = (Returned tt, w')
    /\ issued w w' [PostClearHistory "default"]
    /\ transcript w' = [g]
    /\ says g restartText true text_
    /\ currentPDF (ui w') = None
    /\ forall net', ui (exec (clearChat r true net') w) = ui w'.
Proof.
  destruct net as [reply | e]; unfold_handlers; cbn;
    do 2 eexists; repeat split;
    intros [reply' | e']; reflexivity.
Qed.

(** The text of the error [ApiBilly.sendMessage] rethrows is the server's
    [detail] when there is one, and otherwise one of three fixed texts
    chosen by the transport's message. *)
Lemma chatErrorMessage_classified (e : JsError) :
  (exists d, ApiBilly.detail_of e = Some d
             /\ ApiBilly.chatErrorMessage e = toString d)
  \/ ApiBilly.chatErrorMessage e = "Error de red. Verifica tu conexión."
  \/ ApiBilly.chatErrorMessage e = "Tiempo de espera agotado. Intenta nuevamente."
  \/ ApiBilly.chatErrorMessage e = "Error al enviar mensaje".
Proof.
  unfold ApiBilly.chatErrorMessage.
  destruct (ApiBilly.detail_of e) as [d | ]; [left; eauto | right].
  destruct (includes (message e) "Network Error"); [now left | right].
  destruct (includes (message e) "timeout"); [now left | now right].
Qed.

(** C4.  A plain-chat round trip (no document, server not known to be
    down, input not blank) sends one chat request and appends the user's
    message and exactly one assistant message: the reply as a plain message
    when the call succeeded with a non-empty reply; an error message saying
    that no valid response was received when it succeeded with an empty or
    missing reply, and also when it returned [success: false]; when the
    call failed, an error message carrying the classified error text after
    "Error: ", that is the server's [detail] when the error response has a
    truthy one, the network text when the transport's message mentions
    "Network Error", the timeout text when it mentions "timeout", and the
    generic text otherwise.  In every case the pending flag is off at the
    end. *)
Theorem plain_chat_round_trip (r : State) (net : Axios ApiResponse)
    (w : World) :
  currentPDF r = None ->
  knownDisconnected r = false ->
  ~ Blank (inputText r) ->
  exists (w' : World) (u a : ChatMessage),
    sendMessage r net w = (Returned tt, w')
    /\ appended w w' [u; a]
    /\ says u (inputText r) false text_
    /\ isBot a = true
    /\ isLoading (ui w') = false
    /\ issued w w'
         [PostChat {| chat_message := inputText r;
                      user_id := Some "default";
                      clear_history := Some false |}]
    /\ (forall reply s,
          net = Resolved reply -> success reply = true ->
          response reply = Some s -> s <> "" ->
          says a s true text_)
    /\ (forall reply,
          net = Resolved reply -> success reply = true ->
          response reply = None \/ response reply = Some "" ->
          says a invalidReplyText true error)
    /\ (forall e,
          net = Rejected e ->
          says a ("Error: " ++ ApiBilly.chatErrorMessage e) true error)
    /\ (forall reply,
          net = Resolved reply -> success reply = false ->
          says a "No recibí una respuesta válida del servidor." true error)
    /\ (forall e,
          net = Rejected e ->
          (forall d, carriesDetail e (JsText d) ->
             says a ("Error: " ++ d) true error)
          /\ (forall v, carriesDetail e v ->
                says a ("Error: " ++ toString v) true error)
          /\ (noDetail e -> contains (message e) "Network Error" ->
              says a "Error: Error de red. Verifica tu conexión." true error)
          /\ (noDetail e -> ~ contains (message e) "Network Error" ->
              contains (message e) "timeout" ->
              says a "Error: Tiempo de espera agotado. Intenta nuevamente."
                true error)
          /\ (noDetail e -> ~ contains (message e) "Network Error" ->
              ~ contains (message e) "timeout" ->
              says a "Error: Error al enviar mensaje" true error)).
Proof.
  intros Hpdf Hconn Hnb. apply not_blank_guard in Hnb.
  unfold sendMessage, handleNormalChat. rewrite Hnb, Hpdf, Hconn.
  destruct net as [reply | e].
  - destruct (success reply) eqn:Hs;
      destruct (response reply) as [[| c s] | ] eqn:Hr;
      unfold_handlers; rewrite ?Hs, ?Hr; cbn;
      do 3 eexists;
      (split; [reflexivity | ]); cbn; rewrite <- ?app_assoc; cbn [app];
      (split; [reflexivity | ]); cbn;
      repeat split; by_outcome.
  - destruct (chat_error_classes e) as (Hd & Hn & Ht & Ho).
    unfold_handlers; cbn.
    do 3 eexists.
    (split; [reflexivity | ]); cbn; rewrite <- ?app_assoc; cbn [app].
    (split; [reflexivity | ]); cbn.
    split; [repeat split | ].
    split; [reflexivity | ]. split; [reflexivity | ].
    split; [reflexivity | ].
    split; [intros reply s E; discriminate E | ].
    split; [intros reply E; discriminate E | ].
    split; [intros e' E; injection E as <-; repeat split | ].
    split; [intros reply E; discriminate E | ].
    intros e' E. injection E as <-.
    split; [intros d H; rewrite (Hd _ H); repeat split | ].
    split; [intros v H; rewrite (Hd _ H); repeat split | ].
    split; [intros H1 H2; rewrite (Hn H1 H2); repeat split | ].
    split; [intros H1 H2 H3; rewrite (Ht H1 H2 H3); repeat split | ].
    intros H1 H2 H3; rewrite (Ho H1 H2 H3); repeat split.
Qed.

Lemma plain_chat_round_trip_witness :
  let w := exec (setInputText "What is attention?") (mount tickingSys) in
  (exists (w' : World) (u a : ChatMessage),
      sendMessage (ui w) (Resolved (okReply "Attention is...")) w
      = (Returned tt, w')
      /\ appended w w' [u; a]
      /\ says u "What is attention?" false text_
      /\ says a "Attention is..." true text_
      /\ isLoading (ui w') = false)
  /\ (exists (w' : World) (u a : ChatMessage),
        sendMessage (ui w) (Rejected networkError) w = (Returned tt, w')
        /\ appended w w' [u; a]
        /\ says a "Error: Error de red. Verifica tu conexión." true error
        /\ isLoading (ui w') = false)
  /\ (exists (w' : World) (u a : ChatMessage),
        sendMessage (ui w) (Rejected overloaded) w = (Returned tt, w')
        /\ appended w w' [u; a]
        /\ says a "Error: Model overloaded" true error).
Proof.
  cbv zeta.
  assert (Hb : ~ Blank
                   (inputText
                      (ui (exec (setInputText "What is attention?")
                             (mount tickingSys))))).
  { intros B. apply trim_empty_iff_Blank in B. vm_compute in B.
    discriminate B. }
  split; [ | split ].
  - destruct (plain_chat_round_trip
                (ui (exec (setInputText "What is attention?")
                       (mount tickingSys)))
                (Resolved (okReply "Attention is..."))
                (exec (setInputText "What is attention?") (mount tickingSys))
                eq_refl eq_refl Hb)
      as (w' & u & a & Hrun & Happ & Hu & _ & Hload & _ & Hok & _).
    exists w', u, a. split; [exact Hrun | ]. split; [exact Happ | ].
    split; [exact Hu | ]. split; [ | exact Hload].
    apply (Hok (okReply "Attention is...") "Attention is...");
      try reflexivity; discriminate.
  - destruct (plain_chat_round_trip
                (ui (exec (setInputText "What is attention?")
                       (mount tickingSys)))
                (Rejected networkError)
                (exec (setInputText "What is attention?") (mount tickingSys))
                eq_refl eq_refl Hb)
      as (w' & u & a & Hrun & Happ & _ & _ & Hload & _ & _ & _ & _ & _ & Hko).
    exists w', u, a. split; [exact Hrun | ]. split; [exact Happ | ].
    split; [ | exact Hload].
    destruct (Hko networkError eq_refl) as (_ & _ & Hnet & _).
    apply Hnet.
    + intros r v E. discriminate E.
    + exists "", "". reflexivity.
  - destruct (plain_chat_round_trip
                (ui (exec (setInputText "What is attention?")
                       (mount tickingSys)))
                (Rejected overloaded)
                (exec (setInputText "What is attention?") (mount tickingSys))
                eq_refl eq_refl Hb)
      as (w' & u & a & Hrun & Happ & _ & _ & _ & _ & _ & _ & _ & _ & Hko).
    exists w', u, a. split; [exact Hrun | ]. split; [exact Happ | ].
    destruct (Hko overloaded eq_refl) as (Hdet & _).
    apply Hdet. eexists. split; [reflexivity | ].
    split; [constructor | reflexivity].
Defined.

(** Every request an event issues names the default user. *)
Lemma fire_uses_default_user (ev : Event) (w : World) :
  Forall usesDefaultUser (requests w) ->
  Forall usesDefaultUser (requests (exec (fire ev) w)).
Proof.
  intros H.
  destruct ev as [net | input net | picked net | confirm | confirm net];
    unfold_handlers; cbn; branches;
    rewrite ?Forall_app; repeat split; try assumption;
    repeat constructor.
Qed.

Lemma run_uses_default_user (evs : list Event) :
  forall w, Forall usesDefaultUser (requests w) ->
    Forall usesDefaultUser (requests (run evs w)).
Proof.
  induction evs as [| ev rest IH]; intros w H; cbn [run].
  - exact H.
  - apply IH. now apply fire_uses_default_user.
Qed.

(** C10.  The screen calls the client's [sendMessage] and [clearHistory]
    without a user identifier, and both default it to "default"; the chat
    body always carries [clear_history: false].  So after any sequence of
    events every chat and clear-history request that has left the screen
    names the user "default". *)
Theorem requests_carry_default_user :
  (forall s evs, Forall usesDefaultUser (requests (run evs (mount s))))
  /\ (forall msg net w,
        issued w (exec (ApiBilly.sendMessage msg None net) w)
          [PostChat {| chat_message := msg; user_id := Some "default";
                       clear_history := Some false |}])
  /\ (forall net w,
        issued w (exec (ApiBilly.clearHistory None net) w)
          [PostClearHistory "default"])
  /\ (forall r msg net w,
        knownDisconnected r = false ->
        issued w (exec (handleNormalChat r msg net) w)
          [PostChat {| chat_message := msg; user_id := Some "default";
                       clear_history := Some false |}]).
Proof.
  repeat split.
  - intros s evs. apply run_uses_default_user. constructor.
  - intros msg [reply | e] w; reflexivity.
  - intros [reply | e] w; reflexivity.
  - intros r msg net w Hc. unfold handleNormalChat. rewrite Hc.
    destruct net as [reply | e]; unfold_handlers; cbn; branches; reflexivity.
Qed.

Lemma requests_carry_default_user_witness :
  issued (mount tickingSys)
    (exec (handleNormalChat (ui (mount tickingSys)) "hola"
             (Resolved (okReply "ok"))) (mount tickingSys))
    [PostChat {| chat_message := "hola"; user_id := Some "default";
                 clear_history := Some false |}].
Proof.
  apply (proj2 (proj2 (proj2 requests_carry_default_user))).
  reflexivity.
Defined.

(** ** Routing *)

(** Where a non-blank submission goes: to the document when there is one,
    to the chat otherwise, and nowhere when the server is known to be
    down. *)
Lemma submission_route (w : World) (input : string)
    (net : Axios ApiResponse) :
  ~ Blank input ->
  issued w (exec (fire (Submit input net)) w)
    (if knownDisconnected (ui w) then []
     else match currentPDF (ui w) with
          | Some _ => [PostAskPdf input]
          | None => [PostChat (chatBody input)]
          end).
Proof.
  intros Hnb. apply guard_not_blank in Hnb.
  unfold_handlers. unfold knownDisconnected. cbn. rewrite Hnb.
  branches; rewrite <- ?app_assoc, ?app_nil_r;
    first [ reflexivity | congruence ].
Qed.

(** An event that is not a confirmed clearing keeps a document in the
    slot (an upload may replace it by another). *)
Lemma fire_keeps_document (ev : Event) (w : World) :
  clears ev = false ->
  currentPDF (ui w) <> None ->
  currentPDF (ui (exec (fire ev) w)) <> None.
Proof.
  intros Hc Hd.
  destruct ev as [net | input net | picked net | confirm | confirm net];
    unfold_handlers; cbn in *; branches; try discriminate; try assumption;
    congruence.
Qed.

Lemma run_keeps_document (evs : list Event) :
  forall w, forallb (fun ev => negb (clears ev)) evs = true ->
    currentPDF (ui w) <> None ->
    currentPDF (ui (run evs w)) <> None.
Proof.
  induction evs as [| ev rest IH]; intros w Hc Hd; cbn [run].
  - exact Hd.
  - cbn [forallb] in Hc. apply andb_prop in Hc. destruct Hc as [Hev Hrest].
    apply IH; [exact Hrest | ].
    apply fire_keeps_document; [ | exact Hd].
    now destruct (clears ev).
Qed.

Lemma fire_clears_document (ev : Event) (w : World) :
  clears ev = true -> currentPDF (ui (exec (fire ev) w)) = None.
Proof.
  intros Hc.
  destruct ev as [net | input net | picked net | confirm | confirm net];
    try discriminate Hc; destruct confirm; try discriminate Hc;
    unfold_handlers; cbn; branches; congruence.
Qed.

(** C1, as the code has it.  From the moment a document is in the slot and
    until a clearing is confirmed, a non-blank submission never goes to the
    chat endpoint: it goes to the document endpoint with the text typed,
    unless the server is known to be down, in which case no request leaves
    at all.  Right after a confirmed clearing, a non-blank submission goes
    to the chat endpoint with the text typed and never to the document
    endpoint, again unless the server is known to be down. *)
Theorem routing_after_upload (w : World) (mid : list Event)
    (input : string) (net : Axios ApiResponse) :
  currentPDF (ui w) <> None ->
  forallb (fun ev => negb (clears ev)) mid = true ->
  ~ Blank input ->
  let w1 := run mid w in
  issued w1 (exec (fire (Submit input net)) w1)
    (if knownDisconnected (ui w1) then [] else [PostAskPdf input])
  /\ forall ev, clears ev = true ->
       let w2 := exec (fire ev) w1 in
       issued w2 (exec (fire (Submit input net)) w2)
         (if knownDisconnected (ui w2) then []
          else [PostChat (chatBody input)]).
Proof.
  intros Hd Hmid Hnb w1. split.
  - pose proof (run_keeps_document mid w Hmid Hd) as Hd1. fold w1 in Hd1.
    pose proof (submission_route w1 input net Hnb) as R.
    destruct (currentPDF (ui w1)); [exact R | congruence].
  - intros ev Hev w2.
    pose proof (fire_clears_document ev w1 Hev) as Hd2. fold w2 in Hd2.
    pose proof (submission_route w2 input net Hnb) as R.
    now rewrite Hd2 in R.
Qed.

Lemma routing_after_upload_witness :
  let w := run [PickPdf paperFile (Resolved paperReply)] (mount tickingSys) in
  let w1 := run [Probe (Resolved healthyBody)] w in
  issued w1 (exec (fire (Submit "hola" (Resolved (okReply "ok")))) w1)
    [PostAskPdf "hola"]
  /\ issued (exec (fire (ClearPdf true)) w1)
       (exec (fire (Submit "hola" (Resolved (okReply "ok"))))
          (exec (fire (ClearPdf true)) w1))
       [PostChat (chatBody "hola")].
Proof.
  cbv zeta.
  assert (Hd : currentPDF
                 (ui (run [PickPdf paperFile (Resolved paperReply)]
                        (mount tickingSys))) <> None)
    by (vm_compute; discriminate).
  assert (Hm : forallb (fun ev => negb (clears ev))
                 [Probe (Resolved healthyBody)] = true)
    by reflexivity.
  assert (Hb : ~ Blank "hola").
  { intros B. apply trim_empty_iff_Blank in B. vm_compute in B.
    discriminate B. }
  pose proof (routing_after_upload
                (run [PickPdf paperFile (Resolved paperReply)]
                   (mount tickingSys))
                [Probe (Resolved healthyBody)] "hola"
                (Resolved (okReply "ok")) Hd Hm Hb) as H.
  cbv zeta in H. destruct H as [Hdoc Hchat].
  specialize (Hchat (ClearPdf true) eq_refl).
  split.
  - vm_compute in Hdoc |- *. exact Hdoc.
  - vm_compute in Hchat |- *. exact Hchat.
Defined.

(** C1, as stated, fails.  The probe started at mount may complete after an
    upload has succeeded (the upload handler saw the flag still unknown).
    With the document in the slot and the server now known to be down, a
    non-blank submission issues no request, so nothing reaches the document
    endpoint; and after the document is cleared the next submission issues
    no request either, so nothing reaches the chat endpoint. *)
Lemma document_question_skipped_when_disconnected :
  let w1 :=
    run [PickPdf paperFile (Resolved paperReply); Probe (Resolved unhealthyBody)]
      (mount tickingSys) in
  let ask := Submit "hola" (Resolved (okReply "ok")) in
  (exists doc, currentPDF (ui w1) = Some doc /\ name doc = "paper.pdf")
  /\ isServerConnected (ui w1) = Some false
  /\ requests (exec (fire ask) w1) = requests w1
  /\ existsb isAskPdf (requests (exec (fire ask) w1)) = false
  /\ (let w2 := exec (fire (ClearPdf true)) w1 in
      currentPDF (ui w2) = None
      /\ requests (exec (fire ask) w2) = requests w2
      /\ existsb isChat (requests (exec (fire ask) w2)) = false).
Proof.
  cbv zeta.
  split.
  { exists {| name := "paper.pdf"; pdf_analysis_of := Some "Summary...";
              pdf_preview := None; pdf_pages := Some (number_of_Z 12);
              pdf_size_kb := Some (number_of_Z 340) |}.
    split; vm_compute; reflexivity. }
  split; [vm_compute; reflexivity | ].
  split; [vm_compute; reflexivity | ].
  split; [vm_compute; reflexivity | ].
  split; [vm_compute; reflexivity | ].
  split; vm_compute; reflexivity.
Qed.

(** ** The growth of the transcript *)

(** One non-blank submission appends the user's message and then the
    assistant's: one message, or two on the document path when the server
    is not known to be down.  It changes neither the document slot nor the
    connectivity flag. *)
Lemma submission_appends (w : World) (input : string)
    (net : Axios ApiResponse) :
  ~ Blank input ->
  let w' := exec (fire (Submit input net)) w in
  (exists u rest,
      appended w w' (u :: rest)
      /\ says u input false text_
      /\ Forall (fun m => isBot m = true) rest
      /\ List.length rest = repliesPerSubmission (ui w))
  /\ currentPDF (ui w') = currentPDF (ui w)
  /\ isServerConnected (ui w') = isServerConnected (ui w).
Proof.
  intros Hnb. apply guard_not_blank in Hnb.
  unfold repliesPerSubmission, knownDisconnected.
  unfold_handlers. unfold knownDisconnected. cbn. rewrite Hnb.
  branches; try congruence;
    (split; [ | split; reflexivity ]);
    do 2 eexists;
    (split; [ rewrite <- ?app_assoc; cbn [app]; reflexivity | ]);
    cbn; repeat split; repeat constructor.
Qed.

Lemma blank_submission_keeps (w : World) (input : string)
    (net : Axios ApiResponse) :
  Blank input ->
  let w' := exec (fire (Submit input net)) w in
  transcript w' = transcript w
  /\ currentPDF (ui w') = currentPDF (ui w)
  /\ isServerConnected (ui w') = isServerConnected (ui w).
Proof.
  intros B.
  destruct (blank_submission_is_noop_step input net w B)
    as (Ht & Hd & _ & Hc & _).
  auto.
Qed.

(** C2, as the code has it.  Over any sequence of submissions the
    transcript grows by one user message and one assistant message per
    non-blank submission, and by one message more per non-blank submission
    when a document is in the slot and the server is not known to be down:
    the document path first appends the notice that it is asking.  Blank
    submissions add nothing, and no non-blank submission is dropped: each
    one appends the text typed as a user message. *)
Theorem transcript_growth (subs : list (string * Axios ApiResponse))
    (w : World) :
  List.length (transcript (run (submissions subs) w))
  = (List.length (transcript w)
     + (1 + repliesPerSubmission (ui w)) * nonBlank subs)%nat
  /\ forall input net,
       ~ Blank input ->
       exists u rest,
         appended w (exec (fire (Submit input net)) w) (u :: rest)
         /\ says u input false text_
         /\ Forall (fun m => isBot m = true) rest
         /\ List.length rest = repliesPerSubmission (ui w).
Proof.
  split.
  - revert w. induction subs as [| [input net] rest IH]; intros w.
    + cbn. lia.
    + unfold submissions, nonBlank in *. cbn [map run fst snd filter].
      rewrite IH. unfold notBlank at 2.
      destruct (String.eqb (trim input) "") eqn:G.
      * apply String.eqb_eq, trim_empty_iff_Blank in G.
        destruct (blank_submission_keeps w input net G) as (Ht & Hd & Hc).
        cbn [negb]. rewrite Ht. unfold repliesPerSubmission, knownDisconnected.
        now rewrite Hd, Hc.
      * assert (Hnb : ~ Blank input).
        { intros B. apply trim_empty_iff_Blank in B.
          apply String.eqb_neq in G. contradiction. }
        destruct (submission_appends w input net Hnb)
          as ((u & more & Happ & _ & _ & Hlen) & Hd & Hc).
        unfold appended in Happ. rewrite Happ.
        cbn [negb List.length]. rewrite length_app. cbn [List.length].
        rewrite Hlen.
        unfold repliesPerSubmission, knownDisconnected.
        rewrite Hd, Hc. lia.
  - intros input net Hnb.
    exact (proj1 (submission_appends w input net Hnb)).
Qed.

Lemma transcript_growth_witness :
  exists u rest,
    appended (mount tickingSys)
      (exec (fire (Submit "hola" (Resolved (okReply "ok")))) (mount tickingSys))
      (u :: rest)
    /\ says u "hola" false text_
    /\ List.length rest = 1%nat.
Proof.
  assert (Hb : ~ Blank "hola").
  { intros B. apply trim_empty_iff_Blank in B. vm_compute in B.
    discriminate B. }
  destruct (proj2 (transcript_growth [] (mount tickingSys))
              "hola" (Resolved (okReply "ok")) Hb)
    as (u & rest & Happ & Hu & _ & Hlen).
  exists u, rest. split; [exact Happ | ]. split; [exact Hu | ].
  exact Hlen.
Defined.

(** C2, as stated, fails.  With a document in the slot and the server
    reachable, one non-blank submission is one completed round trip, and it
    appends three messages: the user's, the notice that the question is
    being asked (of type [pdf_upload]), and the answer. *)
Lemma document_round_trip_appends_three :
  let w1 := run [PickPdf paperFile (Resolved paperReply)] (mount tickingSys) in
  let w2 := exec (fire (Submit "hola" (Resolved (okReply "ok")))) w1 in
  List.length (transcript w2) = (List.length (transcript w1) + 3)%nat
  /\ map text (skipn (List.length (transcript w1)) (transcript w2))
     = ["hola"; askingText "hola"; answerText "ok"]
  /\ map type (skipn (List.length (transcript w1)) (transcript w2))
     = [Some text_; Some pdf_upload; Some pdf_analysis].
Proof.
  cbv zeta.
  split; [vm_compute; reflexivity | ].
  split; vm_compute; reflexivity.
Qed.

(** ** Uploads *)

(** The run of an attempted upload, by the way the request ends. *)
Lemma upload_run (r : State) (fileUri fileName : string)
    (net : Axios ApiResponse) (w : World) :
  knownDisconnected r = false ->
  exists (w' : World) (p : ChatMessage) (rest : list ChatMessage),
    uploadPDF r fileUri fileName net w = (Returned tt, w')
    /\ appended w w' (p :: rest)
    /\ says p (uploadingText fileName) true pdf_upload
    /\ issued w w'
         [PostUploadPdf {| file_uri := fileUri;
                           file_type := "application/pdf";
                           file_name := or_else (Some fileName) "document.pdf" |}]
    /\ match net with
       | Resolved reply =>
           if success reply
           then
             currentPDF (ui w')
             = Some {| name := fileName;
                       pdf_analysis_of := analysis reply;
                       pdf_preview := preview reply;
                       pdf_pages := pages reply;
                       pdf_size_kb := size_kb reply |}
             /\ exists n,
                  says n (uploadedText fileName reply) true pdf
                  /\ if present (analysis reply)
                     then exists m,
                            rest = [n; m]
                            /\ says m (analysisText (the (analysis reply)))
                                 true pdf_analysis
                     else rest = [n]
           else
             currentPDF (ui w') = currentPDF (ui w)
             /\ exists e, rest = [e] /\ says e uploadFailedText true error
       | Rejected err =>
           currentPDF (ui w') = currentPDF (ui w)
           /\ exists e,
                rest = [e]
                /\ says e ("Error subiendo PDF: "
                           ++ ApiBilly.uploadErrorMessage err) true error
       end.
Proof.
  intros Hc. unfold uploadPDF. rewrite Hc.
  destruct net as [reply | err].
  - destruct (success reply) eqn:Hs.
    + destruct (present (analysis reply)) eqn:Ha;
        unfold_handlers; rewrite ?Hs, ?Ha; cbn;
        do 3 eexists;
        (split; [reflexivity | ]); cbn; rewrite <- ?app_assoc; cbn [app];
        (split; [reflexivity | ]);
        (split; [repeat split | ]);
        (split; [reflexivity | ]);
        (split; [reflexivity | ]).
      * eexists ?[n]. split; [ | eexists; split; [reflexivity | repeat split]].
        repeat split.
      * eexists ?[n]. split; [ | reflexivity]. repeat split.
    + unfold_handlers; rewrite ?Hs; cbn.
      do 3 eexists.
      (split; [reflexivity | ]); cbn; rewrite <- ?app_assoc; cbn [app].
      (split; [reflexivity | ]).
      (split; [repeat split | ]).
      (split; [reflexivity | ]).
      (split; [reflexivity | ]).
      eexists. split; [reflexivity | repeat split].
  - unfold_handlers; cbn.
    do 3 eexists.
    (split; [reflexivity | ]); cbn; rewrite <- ?app_assoc; cbn [app].
    (split; [reflexivity | ]).
    (split; [repeat split | ]).
    (split; [reflexivity | ]).
    (split; [reflexivity | ]).
    eexists. split; [reflexivity | repeat split].
Qed.

(** C3, as the code has it.  An upload that is attempted (the server is not
    known to be down) first appends a notice that the file is being
    uploaded, of type [pdf_upload], and sends one upload request.  If the
    call returns [success: true], the document slot is replaced by the new
    document whatever it held, a summary of type [pdf] is appended, and
    after it the initial analysis, of type [pdf_analysis], exactly when the
    response carried a non-empty one.  If the call returns [success: false]
    or fails, the document slot keeps what it held and exactly one message
    of type [error] is appended after the notice; no summary and no
    analysis is appended. *)
Theorem upload_outcome (r : State) (fileUri fileName : string)
    (net : Axios ApiResponse) (w : World) :
  knownDisconnected r = false ->
  exists (w' : World) (p : ChatMessage),
    uploadPDF r fileUri fileName net w = (Returned tt, w')
    /\ says p (uploadingText fileName) true pdf_upload
    /\ issued w w'
         [PostUploadPdf {| file_uri := fileUri;
                           file_type := "application/pdf";
                           file_name := or_else (Some fileName) "document.pdf" |}]
    /\ (forall reply,
          net = Resolved reply -> success reply = true ->
          currentPDF (ui w')
          = Some {| name := fileName;
                    pdf_analysis_of := analysis reply;
                    pdf_preview := preview reply;
                    pdf_pages := pages reply;
                    pdf_size_kb := size_kb reply |}
          /\ exists n,
               says n (uploadedText fileName reply) true pdf
               /\ (forall a, analysis reply = Some a -> a <> "" ->
                     exists m, says m (analysisText a) true pdf_analysis
                               /\ appended w w' [p; n; m])
               /\ (analysis reply = None \/ analysis reply = Some "" ->
                     appended w w' [p; n]))
    /\ (forall reply,
          net = Resolved reply -> success reply = false ->
          currentPDF (ui w') = currentPDF (ui w)
          /\ exists e, says e uploadFailedText true error
                       /\ appended w w' [p; e])
    /\ (forall err,
          net = Rejected err ->
          currentPDF (ui w') = currentPDF (ui w)
          /\ exists e,
               says e ("Error subiendo PDF: " ++ ApiBilly.uploadErrorMessage err)
                 true error
               /\ appended w w' [p; e]).
Proof.
  intros Hc.
  destruct (upload_run r fileUri fileName net w Hc)
    as (w' & p & rest & Hrun & Happ & Hp & Hreq & Hnet).
  exists w', p. split; [exact Hrun | ]. split; [exact Hp | ].
  split; [exact Hreq | ].
  destruct net as [reply | err].
  - split; [ | split ].
    + intros reply' E Hs. injection E as <-. rewrite Hs in Hnet.
      destruct Hnet as (Hdoc & n & Hn & Hrest).
      split; [exact Hdoc | ]. exists n. split; [exact Hn | ]. split.
      * intros a Ha Hne. rewrite Ha in Hrest. cbn in Hrest.
        destruct a as [| c a]; [congruence | ]. cbn in Hrest.
        destruct Hrest as (m & -> & Hm). exists m. split; assumption.
      * intros [Ha | Ha]; rewrite Ha in Hrest; cbn in Hrest;
          now rewrite Hrest in Happ.
    + intros reply' E Hs. injection E as <-. rewrite Hs in Hnet.
      destruct Hnet as (Hdoc & e & -> & He). split; [exact Hdoc | ].
      exists e. split; assumption.
    + intros err E. discriminate E.
  - split; [ | split ].
    + intros reply E. discriminate E.
    + intros reply E. discriminate E.
    + intros err' E. injection E as <-.
      destruct Hnet as (Hdoc & e & -> & He). split; [exact Hdoc | ].
      exists e. split; assumption.
Qed.

Lemma upload_outcome_witness :
  let w := mount tickingSys in
  exists (w' : World) (p n m : ChatMessage),
    uploadPDF (ui w) "file:///downloads/paper.pdf" "paper.pdf"
      (Resolved paperReply) w = (Returned tt, w')
    /\ appended w w' [p; n; m]
    /\ says n (uploadedText "paper.pdf" paperReply) true pdf
    /\ says m (analysisText "Summary...") true pdf_analysis
    /\ (exists doc, currentPDF (ui w') = Some doc /\ name doc = "paper.pdf")
    /\ text n
       = "✅ **PDF subido exitosamente!**" ++ nl ++ nl
         ++ "📄 **Archivo:** paper.pdf" ++ nl
         ++ "📑 **Páginas:** 12" ++ nl
         ++ "📊 **Tamaño:** 340 KB" ++ nl ++ nl
         ++ "💡 Ahora puedes hacer preguntas sobre este documento."
    /\ text m = "📋 **Análisis inicial del PDF:**" ++ nl ++ nl ++ "Summary...".
Proof.
  cbv zeta.
  destruct (upload_outcome (ui (mount tickingSys))
              "file:///downloads/paper.pdf" "paper.pdf"
              (Resolved paperReply) (mount tickingSys) eq_refl)
    as (w' & p & Hrun & _ & _ & Hok & _).
  destruct (Hok paperReply eq_refl eq_refl) as (Hdoc & n & Hn & Hyes & _).
  destruct (Hyes "Summary..." eq_refl) as (m & Hm & Happ);
    [discriminate | ].
  exists w', p, n, m.
  split; [exact Hrun | ]. split; [exact Happ | ].
  split; [exact Hn | ]. split; [exact Hm | ].
  split; [eexists; split; [exact Hdoc | reflexivity] | ].
  split.
  - rewrite (proj1 Hn). vm_compute. reflexivity.
  - rewrite (proj1 Hm). vm_compute. reflexivity.
Defined.

(** C3, as stated, fails.  An upload rejected with status 415 leaves the
    document slot as it was and appends one error message, but that is the
    second of two appended messages: the first is the notice that the file
    is being uploaded, a message about the document of type [pdf_upload]. *)
Lemma failed_upload_appends_notice :
  let w := mount tickingSys in
  let w' :=
    exec (uploadPDF (ui w) "file:///downloads/notes.txt" "notes.txt"
            (Rejected unsupportedFormat)) w in
  currentPDF (ui w') = currentPDF (ui w)
  /\ map type (skipn (List.length (transcript w)) (transcript w'))
     = [Some pdf_upload; Some error]
  /\ map text (skipn (List.length (transcript w)) (transcript w'))
     = [uploadingText "notes.txt";
        "Error subiendo PDF: Formato de archivo no soportado. Asegúrate de que sea un PDF válido."]
  /\ count pdfNotice (skipn (List.length (transcript w)) (transcript w'))
     = 1%nat.
Proof.
  cbv zeta.
  split; [vm_compute; reflexivity | ].
  split; [vm_compute; reflexivity | ].
  split; vm_compute; reflexivity.
Qed.

(** ** Connectivity *)

(** C5, as the code has it.  While the server is known to be down a
    non-blank submission issues no request at all, neither to the chat nor
    to the document endpoint, and appends exactly one local guidance
    message after the user's; an upload is refused with the alert
    "Servidor no disponible", without request or message, also when it
    comes from the file picker.  Two calls go out whatever the flag says: the
    health probe, and the clear-history request of a confirmed
    clear-conversation. *)
Theorem disconnected_short_circuit (r : State) (w : World) :
  knownDisconnected r = true ->
  (forall net, ~ Blank (inputText r) ->
     exists w' u g,
       sendMessage r net w = (Returned tt, w')
       /\ issued w w' []
       /\ appended w w' [u; g]
       /\ says u (inputText r) false text_
       /\ says g (match currentPDF r with
                  | Some _ => offlinePdfText
                  | None => offlineChatText
                  end) true text_)
  /\ (forall fileUri fileName net,
        exists w', uploadPDF r fileUri fileName net w = (Returned tt, w')
                   /\ issued w w' [] /\ appended w w' []
                   /\ currentPDF (ui w') = currentPDF (ui w)
                   /\ alerts w' = (alerts w ++ ["Servidor no disponible"])%list
                   /\ ui w' = ui w)
  /\ (forall picked net,
        let w' := exec (pickPDF r picked net) w in
        issued w w' [] /\ appended w w' []
        /\ currentPDF (ui w') = currentPDF (ui w)
        /\ forall uri fileName, picked = PickedFile uri fileName ->
             alerts w' = (alerts w ++ ["Servidor no disponible"])%list)
  /\ (forall net, issued w (exec (checkServerConnection net) w) [GetHealth])
  /\ (forall net,
        issued w (exec (clearChat r true net) w) [PostClearHistory "default"]).
Proof.
  intros Hc. repeat apply conj.
  - intros net Hnb. apply not_blank_guard in Hnb.
    unfold sendMessage, handleNormalChat, handlePDFQuestion.
    rewrite Hnb, Hc.
    destruct (currentPDF r) as [doc | ]; unfold_handlers; cbn;
      do 3 eexists;
      (split; [reflexivity | ]); cbn;
      rewrite <- ?app_assoc, ?app_nil_r; cbn [app];
      (split; [reflexivity | ]);
      (split; [reflexivity | ]);
      repeat split.
  - intros fileUri fileName net. unfold uploadPDF. rewrite Hc.
    unfold_handlers. cbn. eexists. split; [reflexivity | ]. cbn.
    rewrite ?app_nil_r. repeat split.
  - intros picked net. unfold pickPDF, uploadPDF. rewrite Hc.
    unfold_handlers. unfold codeIs. cbn.
    destruct picked as [uri fileName | e]; cbn;
      branches; rewrite ?app_nil_r;
      repeat split; intros; by_outcome.
  - intros net. unfold_handlers. destruct net as [body | e]; cbn;
      branches; reflexivity.
  - intros [reply | e]; unfold_handlers; reflexivity.
Qed.

Lemma disconnected_short_circuit_witness :
  let w :=
    exec (setInputText "hola")
      (run [Probe (Rejected networkError)] (mount tickingSys)) in
  (exists w' u g,
      sendMessage (ui w) (Resolved (okReply "ok")) w = (Returned tt, w')
      /\ issued w w' []
      /\ appended w w' [u; g]
      /\ says g offlineChatText true text_)
  /\ (exists w',
        uploadPDF (ui w) "file:///downloads/paper.pdf" "paper.pdf"
          (Resolved paperReply) w = (Returned tt, w')
        /\ issued w w' [] /\ appended w w' []
        /\ alerts w' = ["Servidor no disponible"]).
Proof.
  cbv zeta.
  assert (Hc : knownDisconnected
                 (ui (exec (setInputText "hola")
                        (run [Probe (Rejected networkError)]
                           (mount tickingSys)))) = true)
    by (vm_compute; reflexivity).
  assert (Hb : ~ Blank
                   (inputText
                      (ui (exec (setInputText "hola")
                             (run [Probe (Rejected networkError)]
                                (mount tickingSys)))))).
  { intros B. apply trim_empty_iff_Blank in B. vm_compute in B.
    discriminate B. }
  pose proof (disconnected_short_circuit _
                (exec (setInputText "hola")
                   (run [Probe (Rejected networkError)]
                      (mount tickingSys))) Hc) as (Hsend & Hup & _).
  split.
  - destruct (Hsend (Resolved (okReply "ok")) Hb)
      as (w' & u & g & Hrun & Hreq & Happ & _ & Hg).
    exists w', u, g.
    split; [exact Hrun | ]. split; [exact Hreq | ]. split; [exact Happ | ].
    vm_compute in Hg |- *. exact Hg.
  - destruct (Hup "file:///downloads/paper.pdf" "paper.pdf"
                (Resolved paperReply))
      as (w' & Hrun & Hreq & Happ & _ & Hal & _).
    exists w'. split; [exact Hrun | ]. split; [exact Hreq | ].
    split; [exact Happ | ].
    vm_compute in Hal |- *. exact Hal.
Defined.

(** C5, as stated, fails in its last part: the health probe is not the only
    call that goes out whatever the flag says.  With the server known to be
    down, a confirmed clear-conversation still sends the clear-history
    request. *)
Lemma clear_history_sent_when_disconnected :
  let w := run [Probe (Rejected networkError)] (mount tickingSys) in
  let w' := exec (fire (ClearChat true (Rejected networkError))) w in
  knownDisconnected (ui w) = true
  /\ requests w = [GetHealth]
  /\ requests w' = [GetHealth; PostClearHistory "default"].
Proof.
  cbv zeta.
  split; [vm_compute; reflexivity | ].
  split; vm_compute; reflexivity.
Qed.

(** ** Message identity *)

(** C9: the code at a failing input.  An [id] is [Date.now()] plus one draw
    of [Math.random()], and a greeting's [id] is [Date.now()] alone; no
    counter takes part.  When two messages are made within one millisecond
    and the generator returns the same draw twice, they get the same [id]:
    here the user's message and the guidance message of one submission.
    And a message made in the millisecond of the greeting with a draw of 0
    gets the greeting's [id]: the notice of a clear-document press, or the
    notice of the health probe that the mount effect starts. *)
Theorem ids_collide_within_one_instant :
  (let w :=
     run [Probe (Rejected networkError); Submit "hola" (Resolved (okReply "ok"))]
       (mount frozenSys) in
   exists u g,
     skipn 2 (transcript w) = [u; g]
     /\ text u <> text g
     /\ id u = id g)
  /\ (let w := run [ClearPdf true] (mount zeroSys) in
      exists g m,
        transcript w = [g; m]
        /\ text g = welcomeText /\ text m = noPdfText
        /\ id g = inject_Z 1700000000000
        /\ id m = id g)
  /\ (let w := run [Probe (Rejected networkError)] (mount zeroSys) in
      exists g m,
        transcript w = [g; m]
        /\ text g = welcomeText /\ text m = unavailableText
        /\ id g = inject_Z 1700000000000
        /\ id m = id g).
Proof.
  split; [ | split ].
  - cbv zeta. do 2 eexists.
    split; [vm_compute; reflexivity | ].
    split; [vm_compute; discriminate | vm_compute; reflexivity].
  - cbv zeta. do 2 eexists.
    split; [vm_compute; reflexivity | ].
    split; [vm_compute; reflexivity | ].
    split; [vm_compute; reflexivity | ].
    split; vm_compute; reflexivity.
  - cbv zeta. do 2 eexists.
    split; [vm_compute; reflexivity | ].
    split; [vm_compute; reflexivity | ].
    split; [vm_compute; reflexivity | ].
    split; vm_compute; reflexivity.
Qed.

(** * Further properties of the code *)

Import ApiBillyRest ChatbotScreenView Spec2.

(** ** Failures stop at the handlers *)

(** X1.  No handler of the screen throws, whatever render it closes over,
    whatever the world it runs in and however the transport or the file
    picker ends: every rejection of the client is turned into state inside
    the handler. *)
Theorem handlers_never_throw (r : State) (w : World) :
  (forall net, fst (checkServerConnection net w) = Returned tt)
  /\ (forall net, fst (sendMessage r net w) = Returned tt)
  /\ (forall picked net, fst (pickPDF r picked net w) = Returned tt)
  /\ (forall fileUri fileName net,
        fst (uploadPDF r fileUri fileName net w) = Returned tt)
  /\ (forall confirm, fst (clearPDF r confirm w) = Returned tt)
  /\ (forall confirm net, fst (clearChat r confirm net w) = Returned tt)
  /\ (forall ev, fst (fire ev w) = Returned tt).
Proof.
  repeat apply conj.
  - intros net. unfold_handlers. cbn. branches; reflexivity.
  - intros net. unfold_handlers. unfold knownDisconnected. cbn.
    branches; reflexivity.
  - intros picked net. unfold_handlers. unfold knownDisconnected, codeIs.
    cbn. branches; reflexivity.
  - intros fileUri fileName net. unfold_handlers.
    unfold knownDisconnected. cbn. branches; reflexivity.
  - intros confirm. unfold_handlers. cbn. branches; reflexivity.
  - intros confirm net. unfold_handlers. cbn. branches; reflexivity.
  - intros ev.
    destruct ev as [net | input net | picked net | confirm | confirm net];
      unfold_handlers; unfold knownDisconnected, codeIs; cbn;
      branches; reflexivity.
Qed.

(** ** Pending flags *)

Lemma fire_keeps_idle (ev : Event) (w : World) :
  isLoading (ui w) = false -> uploadingPDF (ui w) = false ->
  isLoading (ui (exec (fire ev) w)) = false
  /\ uploadingPDF (ui (exec (fire ev) w)) = false.
Proof.
  intros Hl Hu.
  destruct ev as [net | input net | picked net | confirm | confirm net];
    unfold_handlers; unfold knownDisconnected, codeIs; cbn;
    branches; split; first [ reflexivity | assumption ].
Qed.

Lemma run_keeps_idle (evs : list Event) :
  forall w, isLoading (ui w) = false -> uploadingPDF (ui w) = false ->
    isLoading (ui (run evs w)) = false
    /\ uploadingPDF (ui (run evs w)) = false.
Proof.
  induction evs as [| ev rest IH]; intros w Hl Hu; cbn [run].
  - now split.
  - destruct (fire_keeps_idle ev w Hl Hu) as [Hl' Hu']. now apply IH.
Qed.

(** X2.  A finished handler never leaves the screen busy.  A non-blank
    submission ends with [isLoading] off and a file pick ends with
    [uploadingPDF] off on every path, failures included ([finally]); so
    after any sequence of events from the first render both flags are off,
    the text field is editable and the upload button is enabled. *)
Theorem screen_returns_to_idle :
  (forall r net w,
     String.eqb (trim (inputText r)) "" = false ->
     isLoading (ui (exec (sendMessage r net) w)) = false)
  /\ (forall r picked net w,
        uploadingPDF (ui (exec (pickPDF r picked net) w)) = false)
  /\ (forall s evs,
        let now := ui (run evs (mount s)) in
        isLoading now = false /\ uploadingPDF now = false
        /\ inputEditable now = true /\ pickDisabled now = false).
Proof.
  repeat apply conj.
  - intros r net w G. unfold_handlers. unfold knownDisconnected. cbn.
    rewrite G. branches; reflexivity.
  - intros r picked net w. unfold_handlers.
    unfold knownDisconnected, codeIs. cbn. branches; reflexivity.
  - intros s evs now.
    destruct (run_keeps_idle evs (mount s) eq_refl eq_refl) as [Hl Hu].
    fold now in Hl, Hu. unfold inputEditable, pickDisabled.
    rewrite Hl, Hu. repeat split.
Qed.

Lemma screen_returns_to_idle_witness :
  isLoading
    (ui (exec (sendMessage
                 (ui (exec (setInputText "hola") (mount tickingSys)))
                 (Rejected networkError))
           (mount tickingSys))) = false.
Proof.
  apply (proj1 screen_returns_to_idle). vm_compute. reflexivity.
Defined.

(** ** Requests *)

(** X3.  One event, at most one request.  The probe sends exactly one
    health request; a submission sends at most one request, to the chat or
    to the document endpoint; a file pick sends at most one upload; the
    clear-document action sends none; the clear-conversation sends one
    clear-history request when confirmed and none when cancelled. *)
Theorem one_request_per_event (ev : Event) (w : World) :
  exists new,
    issued w (exec (fire ev) w) new
    /\ (List.length new <= 1)%nat
    /\ match ev with
       | Probe _ => new = [GetHealth]
       | Submit input _ =>
           new = [] \/ new = [PostChat (chatBody input)]
           \/ new = [PostAskPdf input]
       | PickPdf _ _ => forall req, In req new -> exists f, req = PostUploadPdf f
       | ClearPdf _ => new = []
       | ClearChat confirm _ =>
           new = if confirm then [PostClearHistory "default"] else []
       end.
Proof.
  destruct ev as [net | input net | picked net | confirm | confirm net];
    unfold_handlers; unfold knownDisconnected, codeIs, chatBody; cbn;
    branches;
    eexists;
    (split; [ first [ reflexivity
                    | symmetry; apply app_nil_r ] | ]);
    (split; [ cbn; lia | ]);
    cbn; auto;
    try (intros req [<- | []]; eauto);
    try (intros req []).
Qed.

(** ** The transcript *)

Lemma fire_extends_transcript (ev : Event) (w : World) :
  resetsChat ev = false ->
  exists new,
    appended w (exec (fire ev) w) new
    /\ (List.length new <= 3)%nat
    /\ forall m, In m new -> isBot m = false ->
         exists input net, ev = Submit input net /\ text m = input.
Proof.
  intros Hr.
  destruct ev as [net | input net | picked net | confirm | confirm net];
    try (destruct confirm; try discriminate Hr);
    unfold_handlers; unfold knownDisconnected, codeIs; cbn;
    branches;
    eexists;
    (split; [ rewrite <- ?app_assoc; cbn [app];
              first [ reflexivity | symmetry; apply app_nil_r ] | ]);
    (split; [ cbn; lia | ]);
    cbn; intros m Hin Hbot;
    repeat match goal with
           | H : _ \/ _ |- _ => destruct H as [H | H]
           | H : False |- _ => destruct H
           end;
    subst; cbn in Hbot; try discriminate Hbot;
    do 2 eexists; split; reflexivity.
Qed.

(** X4.  The transcript is append-only until the conversation is cleared.
    Every event other than a confirmed clear-conversation keeps the
    messages there are, in order and unchanged, and appends at most three;
    whatever it appends comes from the assistant, except the one message
    of a submission that carries the text typed.  Over a sequence of such
    events the transcript at the start stays a prefix of the transcript at
    the end.  A confirmed clear-conversation leaves exactly one message. *)
Theorem transcript_append_only (w : World) :
  (forall ev, resetsChat ev = false ->
     exists new,
       appended w (exec (fire ev) w) new
       /\ (List.length new <= 3)%nat
       /\ forall m, In m new -> isBot m = false ->
            exists input net, ev = Submit input net /\ text m = input)
  /\ (forall evs, forallb (fun ev => negb (resetsChat ev)) evs = true ->
        startsWith (transcript w) (transcript (run evs w)))
  /\ (forall net,
        List.length (transcript (exec (fire (ClearChat true net)) w)) = 1%nat).
Proof.
  repeat apply conj.
  - intros ev Hr. now apply fire_extends_transcript.
  - intros evs. revert w.
    induction evs as [| ev rest IH]; intros w Hall; cbn [run].
    + exists []. now rewrite app_nil_r.
    + cbn [forallb] in Hall. apply andb_prop in Hall.
      destruct Hall as [Hev Hrest].
      destruct (fire_extends_transcript ev w) as (new & Happ & _).
      { now destruct (resetsChat ev). }
      destruct (IH (exec (fire ev) w) Hrest) as [more Hmore].
      exists (new ++ more)%list. rewrite Hmore. unfold appended in Happ.
      rewrite Happ. now rewrite app_assoc.
  - intros [reply | e]; unfold_handlers; reflexivity.
Qed.

Lemma transcript_append_only_witness :
  startsWith (transcript (mount tickingSys))
    (transcript
       (run [Probe (Resolved healthyBody);
             Submit "hola" (Resolved (okReply "ok"));
             ClearPdf true]
          (mount tickingSys))).
Proof.
  apply (proj1 (proj2 (transcript_append_only (mount tickingSys)))).
  reflexivity.
Defined.

Lemma fire_keeps_greeting (ev : Event) (w : World) :
  (exists g rest, transcript w = g :: rest /\ isGreeting g) ->
  exists g rest, transcript (exec (fire ev) w) = g :: rest /\ isGreeting g.
Proof.
  intros (g & rest & Ht & Hg).
  destruct (resetsChat ev) eqn:Hr.
  - destruct ev as [net | input net | picked net | confirm | confirm net];
      try discriminate Hr.
    destruct confirm; [ | discriminate Hr].
    destruct net as [reply | e]; unfold_handlers; cbn;
      do 2 eexists; (split; [reflexivity | ]);
      unfold isGreeting; cbn; repeat split; eauto.
  - destruct (fire_extends_transcript ev w Hr) as (new & Happ & _).
    unfold appended in Happ. rewrite Ht in Happ.
    exists g, (rest ++ new)%list. split; [exact Happ | exact Hg].
Qed.

(** X5.  The transcript is never empty and always opens with a greeting:
    after any sequence of events from the first render its first message
    is an assistant text message carrying the welcome text or the restart
    text, with an integral [id] (the bare [Date.now()]). *)
Theorem transcript_opens_with_greeting (s : Sys) (evs : list Event) :
  exists g rest,
    transcript (run evs (mount s)) = g :: rest /\ isGreeting g.
Proof.
  assert (H0 : exists g rest,
             transcript (mount s) = g :: rest /\ isGreeting g).
  { do 2 eexists. split; [reflexivity | ].
    unfold isGreeting. cbn. repeat split; eauto. }
  revert H0. generalize (mount s). induction evs as [| ev rest IH];
    intros w H; cbn [run].
  - exact H.
  - apply IH. now apply fire_keeps_greeting.
Qed.

(** ** The connectivity flag *)

(** The health check, as a helper: it returns and tells whether the body
    was healthy. *)
Lemma checkHealth_total (net : Axios JsValue) (w : World) :
  exists (b : bool) (w' : World),
    ApiBilly.checkHealth net w = (Returned b, w')
    /\ ui w' = ui w
    /\ requests w' = (requests w ++ [GetHealth])%list
    /\ (b = true <-> exists body, net = Resolved body /\ healthy body).
Proof.
  unfold healthy.
  destruct net as [body | e].
  - destruct body as [ | | b | n | s | items | fields ];
      try (exists false; eexists; unfold_handlers; cbn;
           repeat split; try discriminate;
           intros (body & E & F); injection E as <-; inversion F).
    unfold_handlers. cbn.
    destruct (find (fun kv => String.eqb (fst kv) "status") fields)
      as [[k v] | ] eqn:Hf; cbn.
    + exists (strict_eq_string v "healthy"). eexists.
      repeat split.
      * intros Hv. exists (JsObject fields). split; [reflexivity | ].
        apply Field_find. exists k. rewrite Hf.
        destruct v; try discriminate Hv. cbn in Hv.
        apply String.eqb_eq in Hv. now subst.
      * intros (body & E & F). injection E as <-.
        apply Field_find in F. destruct F as [k' F].
        rewrite Hf in F. injection F as _ ->. reflexivity.
    + exists false. eexists. repeat split; try discriminate.
      intros (body & E & F). injection E as <-.
      apply Field_find in F. destruct F as [k' F]. congruence.
  - exists false. eexists. unfold_handlers. cbn.
    repeat split; try discriminate.
    intros (body & E & _). discriminate E.
Qed.

Lemma probe_decides_flag_run (net : Axios JsValue) (w : World) :
  exists b, isServerConnected (ui (exec (checkServerConnection net) w))
            = Some b.
Proof.
  destruct (checkHealth_total net w) as (b & w1 & Hrun & _).
  unfold exec, checkServerConnection, try_catch, bind. rewrite Hrun.
  exists b. destruct b; reflexivity.
Qed.


(** X6.  The probe always decides the flag.  It sends one health request,
    sets the flag to [true] exactly when the endpoint answered with
    [status] "healthy" and to [false] otherwise, and appends one assistant
    message saying which; the message of its [catch] branch never appears,
    since [checkHealth] does not throw.  The document slot and the rest of
    the transcript are untouched. *)
Theorem probe_decides_flag (net : Axios JsValue) (w : World) :
  exists (w' : World) (m : ChatMessage) (b : bool),
    checkServerConnection net w = (Returned tt, w')
    /\ issued w w' [GetHealth]
    /\ appended w w' [m]
    /\ isServerConnected (ui w') = Some b
    /\ (b = true <-> exists body, net = Resolved body /\ healthy body)
    /\ says m (if b then connectedText else unavailableText) true text_
    /\ currentPDF (ui w') = currentPDF (ui w).
Proof.
  destruct (checkHealth_total net w) as (b & w1 & Hrun & Hui & Hreq & Hb).
  unfold checkServerConnection, try_catch, bind. rewrite Hrun.
  destruct b; unfold_handlers; cbn;
    do 3 eexists;
    (split; [reflexivity | ]); cbn; rewrite Hreq, Hui;
    (split; [reflexivity | ]);
    (split; [reflexivity | ]);
    (split; [reflexivity | ]);
    (split; [exact Hb | ]);
    repeat split.
Qed.

(** X7.  Only the probe changes the connectivity flag: submissions, file
    picks, clearing the document and clearing the conversation all leave
    it as it is, over any sequence; and once the probe has decided it, no
    event makes it unknown again. *)
Theorem flag_changes_only_by_probe (w : World) :
  (forall ev, isProbe ev = false ->
     isServerConnected (ui (exec (fire ev) w)) = isServerConnected (ui w))
  /\ (forall evs, existsb isProbe evs = false ->
        isServerConnected (ui (run evs w)) = isServerConnected (ui w))
  /\ (forall evs, isServerConnected (ui w) <> None ->
        isServerConnected (ui (run evs w)) <> None).
Proof.
  assert (Hstep : forall ev w0, isProbe ev = false ->
            isServerConnected (ui (exec (fire ev) w0))
            = isServerConnected (ui w0)).
  { intros ev w0 Hp.
    destruct ev as [net | input net | picked net | confirm | confirm net];
      try discriminate Hp;
      unfold_handlers; unfold knownDisconnected, codeIs; cbn;
      branches; reflexivity. }
  repeat apply conj.
  - intros ev. apply Hstep.
  - intros evs. revert w.
    induction evs as [| ev rest IH]; intros w Hp; cbn [run].
    + reflexivity.
    + cbn [existsb] in Hp. apply orb_false_elim in Hp.
      destruct Hp as [Hev Hrest].
      rewrite (IH _ Hrest). now apply Hstep.
  - intros evs. revert w.
    induction evs as [| ev rest IH]; intros w Hk; cbn [run].
    + exact Hk.
    + apply IH. destruct (isProbe ev) eqn:Hp.
      * destruct ev as [net | | | | ]; try discriminate Hp.
        destruct (probe_decides_flag_run net w) as (b & Hb).
        cbn [fire]. rewrite Hb. discriminate.
      * now rewrite (Hstep ev w Hp).
Qed.

Lemma flag_changes_only_by_probe_witness :
  isServerConnected
    (ui (run [Submit "hola" (Rejected networkError);
              PickPdf paperFile (Rejected networkError);
              ClearChat true (Rejected networkError)]
           (run [Probe (Resolved healthyBody)] (mount tickingSys))))
  = Some true.
Proof.
  rewrite (proj1 (proj2 (flag_changes_only_by_probe
                           (run [Probe (Resolved healthyBody)]
                              (mount tickingSys))))).
  - vm_compute. reflexivity.
  - reflexivity.
Defined.

(** ** Questions about the document *)

(** X8.  A document round trip (a document in the slot, server not known
    to be down, input not blank) sends one request to the document
    endpoint with the text typed and appends the user's message, the notice
    that the question is being asked, and one closing message: the reply
    under the answer heading, of type [pdf_analysis], when the call
    succeeded with a non-empty reply; a fixed error message when it
    returned without one or with [success: false]; the client's error text
    after "Error analizando PDF: " when it failed.  The document stays in
    the slot, the text field is emptied and the pending flag is off. *)
Theorem document_round_trip (r : State) (doc : PdfInfo)
    (net : Axios ApiResponse) (w : World) :
  currentPDF r = Some doc ->
  knownDisconnected r = false ->
  ~ Blank (inputText r) ->
  exists (w' : World) (u n a : ChatMessage),
    sendMessage r net w = (Returned tt, w')
    /\ appended w w' [u; n; a]
    /\ issued w w' [PostAskPdf (inputText r)]
    /\ says u (inputText r) false text_
    /\ says n (askingText (inputText r)) true pdf_upload
    /\ isLoading (ui w') = false
    /\ inputText (ui w') = ""
    /\ currentPDF (ui w') = currentPDF (ui w)
    /\ (forall reply s,
          net = Resolved reply -> success reply = true ->
          response reply = Some s -> s <> "" ->
          says a (answerText s) true pdf_analysis)
    /\ (forall reply,
          net = Resolved reply ->
          success reply = false \/ response reply = None
          \/ response reply = Some "" ->
          says a pdfFailedText true error)
    /\ (forall e,
          net = Rejected e ->
          says a ("Error analizando PDF: " ++ ApiBilly.askErrorMessage e)
            true error).
Proof.
  intros Hpdf Hconn Hnb. apply not_blank_guard in Hnb.
  unfold sendMessage, handlePDFQuestion. rewrite Hnb, Hpdf, Hconn.
  destruct net as [reply | e].
  - destruct (success reply) eqn:Hs;
      destruct (response reply) as [[| c s] | ] eqn:Hr;
      unfold_handlers; rewrite ?Hs, ?Hr; cbn;
      do 4 eexists;
      (split; [reflexivity | ]); cbn; rewrite <- ?app_assoc; cbn [app];
      (split; [reflexivity | ]); cbn;
      repeat split; by_outcome.
  - unfold_handlers; cbn.
    do 4 eexists.
    (split; [reflexivity | ]); cbn; rewrite <- ?app_assoc; cbn [app].
    (split; [reflexivity | ]); cbn.
    repeat split; by_outcome.
Qed.

Lemma document_round_trip_witness :
  let w :=
    exec (setInputText "What is the method?")
      (run [PickPdf paperFile (Resolved paperReply)] (mount tickingSys)) in
  exists (w' : World) (u n a : ChatMessage),
    sendMessage (ui w) (Resolved (okReply "Attention.")) w = (Returned tt, w')
    /\ appended w w' [u; n; a]
    /\ says a (answerText "Attention.") true pdf_analysis.
Proof.
  cbv zeta.
  destruct (document_round_trip
              (ui (exec (setInputText "What is the method?")
                     (run [PickPdf paperFile (Resolved paperReply)]
                        (mount tickingSys))))
              {| name := "paper.pdf"; pdf_analysis_of := Some "Summary...";
                 pdf_preview := None; pdf_pages := Some (number_of_Z 12);
                 pdf_size_kb := Some (number_of_Z 340) |}
              (Resolved (okReply "Attention."))
              (exec (setInputText "What is the method?")
                 (run [PickPdf paperFile (Resolved paperReply)]
                    (mount tickingSys))))
    as (w' & u & n & a & Hrun & Happ & _ & _ & _ & _ & _ & _ & Hok & _).
  - vm_compute. reflexivity.
  - vm_compute. reflexivity.
  - intros B. apply trim_empty_iff_Blank in B. vm_compute in B.
    discriminate B.
  - exists w', u, n, a. split; [exact Hrun | ]. split; [exact Happ | ].
    apply (Hok (okReply "Attention.") "Attention.");
      try reflexivity; discriminate.
Defined.

(** ** Picking a file *)

(** X9.  When the file picker fails, nothing is uploaded and nothing is
    said: no request, no message, the document slot as it was and the
    upload flag off.  A cancellation shows no alert; any other failure
    shows exactly one, titled after the error's code. *)
Theorem failed_pick_touches_nothing (r : State) (e : JsError)
    (net : Axios ApiResponse) (w : World) :
  let w' := exec (pickPDF r (PickFailed e) net) w in
  issued w w' []
  /\ appended w w' []
  /\ currentPDF (ui w') = currentPDF (ui w)
  /\ uploadingPDF (ui w') = false
  /\ alerts w'
     = (alerts w ++
        if codeIs e "DOCUMENT_PICKER_CANCELED" then []
        else if codeIs e "PERMISSION_DENIED" then ["Permiso denegado"]
        else if codeIs e "UNSUPPORTED_TYPE" then ["Formato no soportado"]
        else ["Error"])%list.
Proof.
  unfold_handlers. cbn.
  destruct (codeIs e "DOCUMENT_PICKER_CANCELED");
    [ | destruct (codeIs e "PERMISSION_DENIED");
        [ | destruct (codeIs e "UNSUPPORTED_TYPE") ] ];
    cbn; rewrite ?app_nil_r; repeat split.
Qed.

Lemma fire_uploads_well_formed (ev : Event) (w : World) :
  Forall wellFormedUpload (requests w) ->
  Forall wellFormedUpload (requests (exec (fire ev) w)).
Proof.
  intros H.
  destruct ev as [net | input net | picked net | confirm | confirm net];
    unfold_handlers; unfold knownDisconnected, codeIs, or_else; cbn;
    branches;
    rewrite ?Forall_app; repeat split; try assumption;
    repeat constructor; cbn; try discriminate; try reflexivity;
    try congruence;
    intros E; subst; cbn in *; discriminate.
Qed.

(** X10.  The screen never uploads a nameless file.  The file goes out
    under the name the picker gave, or as "documento.pdf" when that name is
    missing or empty, declared as "application/pdf"; that name is never
    empty, so the client's own fallback name is never used, and on success
    it is the name recorded in the document slot.  After any sequence of
    events every upload request that has left the screen carries a
    non-empty file name and the PDF type. *)
Theorem uploads_are_named (s : Sys) (evs : list Event) :
  Forall wellFormedUpload (requests (run evs (mount s)))
  /\ forall r uri fileName net w,
       knownDisconnected r = false ->
       let sent := or_else fileName "documento.pdf" in
       let w' := exec (pickPDF r (PickedFile uri fileName) net) w in
       sent <> ""
       /\ issued w w'
            [PostUploadPdf {| file_uri := uri; file_type := "application/pdf";
                              file_name := sent |}]
       /\ (forall reply, net = Resolved reply -> success reply = true ->
             exists doc, currentPDF (ui w') = Some doc /\ name doc = sent).
Proof.
  split.
  - generalize (mount s)
      (Forall_nil wellFormedUpload : Forall _ (requests (mount s))).
    induction evs as [| ev rest IH]; intros w H; cbn [run].
    + exact H.
    + apply IH. now apply fire_uploads_well_formed.
  - intros r uri fileName net w Hc sent w'.
    assert (Hne : sent <> "").
    { subst sent. unfold or_else.
      destruct fileName as [[| c n] | ]; cbn; discriminate. }
    assert (Hsame : or_else (Some sent) "document.pdf" = sent).
    { unfold or_else at 1. destruct sent; [congruence | reflexivity]. }
    split; [exact Hne | ].
    subst w'. unfold pickPDF, uploadPDF. fold sent. rewrite Hc.
    unfold ApiBilly.uploadPDF. rewrite Hsame.
    destruct net as [reply | e].
    + destruct (success reply) eqn:Hs;
        destruct (present (analysis reply)) eqn:Ha;
        unfold_handlers; rewrite ?Hs, ?Ha; cbn;
        (split; [reflexivity | ]);
        intros reply' E Hs'; injection E as <-;
        first [ congruence | eexists; split; reflexivity ].
    + unfold_handlers; cbn. split; [reflexivity | ].
      intros reply E; discriminate E.
Qed.

Lemma uploads_are_named_witness :
  let w' :=
    exec (pickPDF (ui (mount tickingSys))
            (PickedFile "content://downloads/17" None) (Resolved paperReply))
      (mount tickingSys) in
  exists doc, currentPDF (ui w') = Some doc /\ name doc = "documento.pdf".
Proof.
  cbv zeta.
  destruct (proj2 (uploads_are_named tickingSys [])
              (ui (mount tickingSys)) "content://downloads/17" None
              (Resolved paperReply) (mount tickingSys) eq_refl)
    as (_ & _ & H).
  exact (H paperReply eq_refl eq_refl).
Defined.

(** ** Clearing *)

(** X11.  Clearing the document never talks to the server and never
    touches the messages there are.  Confirmed, it empties the slot and
    appends one assistant notice; cancelled, it changes nothing in the
    component; asked with no document in the slot, it shows no alert and
    appends one assistant message saying so.  A cancelled
    clear-conversation changes nothing either and sends nothing. *)
Theorem clearing_the_document (r : State) (w : World) :
  (forall confirm, issued w (exec (clearPDF r confirm) w) [])
  /\ (forall doc, currentPDF r = Some doc ->
        (exists m,
            appended w (exec (clearPDF r true) w) [m]
            /\ says m pdfRemovedText true text_)
        /\ currentPDF (ui (exec (clearPDF r true) w)) = None
        /\ ui (exec (clearPDF r false) w) = ui w
        /\ alerts (exec (clearPDF r false) w)
           = (alerts w ++ ["Limpiar PDF actual"])%list)
  /\ (currentPDF r = None ->
        forall confirm,
          (exists m,
              appended w (exec (clearPDF r confirm) w) [m]
              /\ says m noPdfText true text_)
          /\ alerts (exec (clearPDF r confirm) w) = alerts w
          /\ currentPDF (ui (exec (clearPDF r confirm) w))
             = currentPDF (ui w))
  /\ (forall net,
        ui (exec (clearChat r false net) w) = ui w
        /\ issued w (exec (clearChat r false net) w) []).
Proof.
  repeat apply conj.
  - intros confirm. unfold_handlers.
    destruct (currentPDF r); destruct confirm; cbn;
      now rewrite app_nil_r.
  - intros doc Hd. unfold clearPDF. rewrite Hd. unfold_handlers. cbn.
    split; [eexists; split; [reflexivity | repeat split] | ].
    split; [reflexivity | ].
    split; [now destruct (ui w) | reflexivity].
  - intros Hd confirm. unfold clearPDF. rewrite Hd. unfold_handlers. cbn.
    split; [eexists; split; [reflexivity | repeat split] | ].
    split; reflexivity.
  - intros net. unfold_handlers. cbn. rewrite app_nil_r.
    split; [now destruct (ui w) | reflexivity].
Qed.

Lemma clearing_the_document_witness :
  let w := run [PickPdf paperFile (Resolved paperReply)] (mount tickingSys) in
  currentPDF (ui (exec (clearPDF (ui w) true) w)) = None
  /\ ui (exec (clearPDF (ui w) false) w) = ui w.
Proof.
  cbv zeta.
  destruct (proj1 (proj2 (clearing_the_document
              (ui (run [PickPdf paperFile (Resolved paperReply)]
                     (mount tickingSys)))
              (run [PickPdf paperFile (Resolved paperReply)]
                 (mount tickingSys))))
              {| name := "paper.pdf"; pdf_analysis_of := Some "Summary...";
                 pdf_preview := None; pdf_pages := Some (number_of_Z 12);
                 pdf_size_kb := Some (number_of_Z 340) |})
    as (_ & Hnone & Hsame & _).
  - vm_compute. reflexivity.
  - split; [exact Hnone | exact Hsame].
Defined.

(** ** What the user said *)

Lemma fire_user_texts (ev : Event) (w : World) :
  resetsChat ev = false ->
  userTexts (transcript (exec (fire ev) w))
  = (userTexts (transcript w) ++ typed [ev])%list.
Proof.
  intros Hr. unfold userTexts, typed, notBlank. cbn [flat_map].
  rewrite app_nil_r.
  destruct ev as [net | input net | picked net | confirm | confirm net];
    try (destruct confirm; try discriminate Hr);
    unfold_handlers; unfold knownDisconnected, codeIs; cbn;
    branches;
    rewrite ?filter_app, ?map_app; cbn;
    rewrite <- ?app_assoc, ?app_nil_r; cbn;
    first [ reflexivity | congruence ].
Qed.

(** X12.  The user's side of the transcript is exactly what was submitted.
    Over any sequence of events without a confirmed clear-conversation, the
    texts of the user messages in the transcript are those that were there
    followed by the non-blank inputs submitted, in the order of
    submission, each once and unaltered (not trimmed): no handler drops,
    repeats, reorders or rewrites a submission, and none speaks for the
    user. *)
Theorem user_side_is_what_was_typed (evs : list Event) (w : World) :
  forallb (fun ev => negb (resetsChat ev)) evs = true ->
  userTexts (transcript (run evs w))
  = (userTexts (transcript w) ++ typed evs)%list.
Proof.
  revert w. induction evs as [| ev rest IH]; intros w Hall; cbn [run].
  - cbn. now rewrite app_nil_r.
  - cbn [forallb] in Hall. apply andb_prop in Hall.
    destruct Hall as [Hev Hrest].
    rewrite (IH _ Hrest), fire_user_texts by now destruct (resetsChat ev).
    unfold typed. cbn [flat_map]. now rewrite app_nil_r, <- app_assoc.
Qed.

Lemma user_side_is_what_was_typed_witness :
  userTexts
    (transcript
       (run [Submit " hola " (Rejected networkError);
             Submit "   " (Resolved (okReply "ok"));
             PickPdf paperFile (Resolved paperReply);
             Submit "y esto?" (Resolved (okReply "ok"))]
          (mount tickingSys)))
  = [" hola "; "y esto?"].
Proof.
  rewrite user_side_is_what_was_typed by reflexivity.
  vm_compute. reflexivity.
Defined.

(** ** The send button *)

Lemma truthy_false (s : string) : truthy s = false <-> s = "".
Proof. destruct s; cbn; split; congruence. Qed.

(** X13.  The send button and the handler agree.  The button is disabled
    for every blank input; and whenever it is enabled the screen is idle
    and a press is not dropped: the handler appends the text typed as a
    user message. *)
Theorem send_button_matches_guard (s : State) :
  (Blank (inputText s) -> sendDisabled s = true)
  /\ (sendDisabled s = false ->
        ~ Blank (inputText s)
        /\ isLoading s = false /\ uploadingPDF s = false
        /\ inputEditable s = true
        /\ forall net w,
             exists u rest,
               appended w (exec (sendMessage s net) w) (u :: rest)
               /\ says u (inputText s) false text_).
Proof.
  unfold sendDisabled, inputEditable. split.
  - intros B. apply trim_empty_iff_Blank in B. now rewrite B.
  - intros H.
    apply orb_false_elim in H. destruct H as [H Hu].
    apply orb_false_elim in H. destruct H as [Ht Hl].
    apply negb_false_iff in Ht.
    assert (Hnb : ~ Blank (inputText s)).
    { intros B. apply trim_empty_iff_Blank in B. rewrite B in Ht.
      discriminate Ht. }
    rewrite Hl, Hu. repeat split; try assumption.
    intros net w. apply guard_not_blank in Hnb.
    unfold_handlers. unfold knownDisconnected. cbn. rewrite Hnb.
    branches; do 2 eexists;
      (split; [ rewrite <- ?app_assoc; cbn [app]; reflexivity | ]);
      repeat split.
Qed.

Lemma send_button_matches_guard_witness :
  sendDisabled
    (ui (exec (setInputText (bytes [32; 10; 9])) (mount tickingSys))) = true
  /\ (let s := ui (exec (setInputText "a") (mount tickingSys)) in
      sendDisabled s = false
      /\ exists u rest,
           appended (mount tickingSys)
             (exec (sendMessage s (Rejected networkError)) (mount tickingSys))
             (u :: rest)
           /\ says u "a" false text_).
Proof.
  split.
  - apply (proj1 (send_button_matches_guard _)).
    apply trim_empty_iff_Blank. vm_compute. reflexivity.
  - cbv zeta.
    assert (He : sendDisabled
                   (ui (exec (setInputText "a") (mount tickingSys))) = false)
      by (vm_compute; reflexivity).
    split; [exact He | ].
    destruct (proj2 (send_button_matches_guard
                       (ui (exec (setInputText "a") (mount tickingSys)))) He)
      as (_ & _ & _ & _ & Hpress).
    destruct (Hpress (Rejected networkError) (mount tickingSys))
      as (u & rest & Happ & Hu).
    exists u, rest. split; [exact Happ | ].
    vm_compute in Hu |- *. exact Hu.
Defined.

(** ** The client's errors *)



(** X15.  [testConnection] never throws and sends one health request.  It
    reports [connected] exactly when the request resolved, with the
    response's status code, and otherwise the transport's message after
    the server's address, with the status of the error response if there
    is one.  It does not look at the body: an answer that [checkHealth]
    counts as unhealthy is still reported as connected. *)
Theorem testConnection_reports (okStatus : Z) (net : Axios JsValue)
    (w : World) :
  exists (rep : ConnectionReport) (w' : World),
    testConnection okStatus net w = (Returned rep, w')
    /\ issued w w' [GetHealth]
    /\ ui w' = ui w
    /\ url rep = "http://10.0.2.2:8000"
    /\ (connected rep = true <-> exists body, net = Resolved body)
    /\ (forall body, net = Resolved body ->
          report_status rep = Some okStatus
          /\ (~ healthy body ->
                connected rep = true
                /\ fst (ApiBilly.checkHealth net w) = Returned false))
    /\ (forall e, net = Rejected e ->
          report_message rep
          = "No se pudo conectar a http://10.0.2.2:8000: " ++ message e
          /\ report_status rep = option_map status (response_of e)).
Proof.
  destruct net as [body | e].
  - assert (Hch : ~ healthy body ->
                  fst (ApiBilly.checkHealth (Resolved body) w)
                  = Returned false).
    { intros Hn.
      destruct (checkHealth_total (Resolved body) w)
        as (b & w1 & Hrun & _ & _ & Hb).
      rewrite Hrun. cbn. destruct b; [ | reflexivity].
      exfalso. apply Hn.
      destruct (proj1 Hb eq_refl) as (body' & E & Hh).
      now injection E as <-. }
    remember (fst (ApiBilly.checkHealth (Resolved body) w)) as c eqn:Hc.
    clear Hc.
    unfold testConnection. unfold_handlers. cbn.
    do 2 eexists. split; [reflexivity | ]. cbn.
    split; [reflexivity | ]. split; [reflexivity | ].
    split; [reflexivity | ].
    split; [split; [eauto | reflexivity] | ].
    split; [ | intros e E; discriminate E].
    intros body' E. injection E as <-. split; [reflexivity | ].
    intros Hn. split; [reflexivity | now apply Hch].
  - unfold testConnection. unfold_handlers. cbn.
    do 2 eexists. split; [reflexivity | ]. cbn.
    split; [reflexivity | ]. split; [reflexivity | ].
    split; [reflexivity | ].
    split; [split; [discriminate | intros (body & E); discriminate E] | ].
    split; [intros body E; discriminate E | ].
    intros e' E. injection E as <-. split; [reflexivity | ].
    now destruct (response_of e).
Qed.

Lemma testConnection_reports_witness :
  exists (rep : ConnectionReport) (w' : World),
    testConnection 200 (Resolved unhealthyBody) (mount tickingSys)
    = (Returned rep, w')
    /\ connected rep = true
    /\ fst (ApiBilly.checkHealth (Resolved unhealthyBody) (mount tickingSys))
       = Returned false.
Proof.
  destruct (testConnection_reports 200 (Resolved unhealthyBody)
              (mount tickingSys))
    as (rep & w' & Hrun & _ & _ & _ & _ & Hok & _).
  destruct (Hok unhealthyBody eq_refl) as [_ Hdis].
  exists rep, w'. split; [exact Hrun | ].
  apply Hdis. unfold healthy, unhealthyBody. intros F.
  inversion F; subst; congruence.
Defined.
